(** * SpendSmart: the ingestion-and-categorization pipeline

    A shallow embedding of [gemini_client.py], [main.py], [database.py],
    [plaid_client.py] and [sheets_client.py].

    Python dictionaries are finite maps from strings to Python values;
    exceptions are the [Raise] branch of an error monad; the database
    session, the spreadsheet and the external services are explicit state
    and explicit oracles.  Python floats are modelled by exact rationals
    (rounding is not modelled). *)

From Stdlib Require Import Ascii String QArith Qabs.
From stdpp Require Import gmap strings list fin_maps.

Local Open Scope string_scope.
Local Open Scope Z_scope.

(** ** Exceptions and the error monad *)

Inductive exn : Type :=
  | KeyError (key : string)
  | TypeError
  | ValueError
  | AttributeError
  | JSONDecodeError
  | IntegrityError
  | IndexError
  | HttpError
  | FeedError.

Inductive res (A : Type) : Type :=
  | Ok (a : A)
  | Raise (e : exn).
Arguments Ok {A} a.
Arguments Raise {A} e.

#[global] Instance res_ret : MRet res := λ A a, Ok a.
#[global] Instance res_bind : MBind res := λ A B k m,
  match m with
  | Ok a => k a
  | Raise e => Raise e
  end.

(** [try: body except Exception as e: handler e] *)
Definition try_except {A} (body : res A) (handler : exn → res A) : res A :=
  match body with
  | Ok a => Ok a
  | Raise e => handler e
  end.

Definition is_Ok {A} (m : res A) : Prop := ∃ a, m = Ok a.

(** whether a computation returned, and what it returned *)
Definition is_ok {A} (m : res A) : bool :=
  match m with
  | Ok _ => true
  | Raise _ => false
  end.

Definition value {A} (dflt : A) (m : res A) : A :=
  match m with
  | Ok a => a
  | Raise _ => dflt
  end.

(** ** Python values *)

Inductive pyval : Type :=
  | VNone
  | VBool (b : bool)
  | VInt (z : Z)
  | VFloat (q : Q)
  | VStr (s : string)
  | VDate (day : Z)                       (* a [datetime] object *)
  | VList (items : list pyval)
  | VDict (items : list (string * pyval)). (* denotes [list_to_map items] *)

(** A transaction, a categorization result and the statistics record are
    all plain Python dicts. *)
Abbreviation pydict := (gmap string pyval).

Section pyval_ind.
Variable P : pyval → Prop.
Hypothesis HNone : P VNone.
Hypothesis HBool : ∀ b, P (VBool b).
Hypothesis HInt : ∀ z, P (VInt z).
Hypothesis HFloat : ∀ q, P (VFloat q).
Hypothesis HStr : ∀ s, P (VStr s).
Hypothesis HDate : ∀ d, P (VDate d).
Hypothesis HList : ∀ l, Forall P l → P (VList l).
Hypothesis HDict : ∀ l, Forall (λ kv, P kv.2) l → P (VDict l).

Fixpoint pyval_nested_ind (v : pyval) : P v :=
  match v with
  | VNone => HNone
  | VBool b => HBool b
  | VInt z => HInt z
  | VFloat q => HFloat q
  | VStr s => HStr s
  | VDate d => HDate d
  | VList l =>
      HList l ((fix go (l : list pyval) : Forall P l :=
                  match l with
                  | [] => Forall_nil_2 P
                  | x :: l' => Forall_cons_2 P x l' (pyval_nested_ind x) (go l')
                  end) l)
  | VDict l =>
      HDict l ((fix go (l : list (string * pyval)) : Forall (λ kv, P kv.2) l :=
                  match l with
                  | [] => Forall_nil_2 _
                  | kv :: l' =>
                      Forall_cons_2 (λ kv, P kv.2) kv l'
                        (pyval_nested_ind kv.2) (go l')
                  end) l)
  end.
End pyval_ind.

#[global] Instance Q_eq_dec : EqDecision Q.
Proof. solve_decision. Defined.

Fixpoint pyval_eqb (x y : pyval) : bool :=
  match x, y with
  | VNone, VNone => true
  | VBool a, VBool b => bool_decide (a = b)
  | VInt a, VInt b => bool_decide (a = b)
  | VFloat a, VFloat b => bool_decide (a = b)
  | VStr a, VStr b => bool_decide (a = b)
  | VDate a, VDate b => bool_decide (a = b)
  | VList l1, VList l2 =>
      (fix go (l1 l2 : list pyval) : bool :=
         match l1, l2 with
         | [], [] => true
         | a :: l1', b :: l2' => pyval_eqb a b && go l1' l2'
         | _, _ => false
         end) l1 l2
  | VDict l1, VDict l2 =>
      (fix go (l1 l2 : list (string * pyval)) : bool :=
         match l1, l2 with
         | [], [] => true
         | (k1, a) :: l1', (k2, b) :: l2' =>
             bool_decide (k1 = k2) && pyval_eqb a b && go l1' l2'
         | _, _ => false
         end) l1 l2
  | _, _ => false
  end.

Lemma pyval_eqb_spec (x y : pyval) : pyval_eqb x y = true ↔ x = y.
Proof.
  revert y. induction x using pyval_nested_ind; intros y; destruct y; simpl;
    try (split; [discriminate | congruence]);
    try (rewrite bool_decide_eq_true; split; congruence).
  - split; reflexivity.
  - revert items. induction H as [|a l Ha _ IH]; intros [|b items];
      try (split; [discriminate | congruence]); [split; reflexivity|].
    rewrite andb_true_iff, Ha, IH. split.
    + intros [-> Hl]. congruence.
    + intros [= -> ->]. split; reflexivity.
  - revert items. induction H as [|[k1 a] l Ha _ IH]; intros [|[k2 b] items];
      try (split; [discriminate | congruence]); [split; reflexivity|].
    simpl in Ha.
    rewrite !andb_true_iff, bool_decide_eq_true, Ha, IH. split.
    + intros [[-> ->] Hl]. congruence.
    + intros [= -> -> ->]. repeat split; reflexivity.
Qed.

#[global] Instance pyval_eq_dec : EqDecision pyval.
Proof.
  intros x y. destruct (pyval_eqb x y) eqn:E.
  - left. apply pyval_eqb_spec, E.
  - right. intros H. apply pyval_eqb_spec in H. congruence.
Defined.

(** [d.get(key, default)] and [d[key]] on a dict *)
Definition dict_get (d : pydict) (key : string) (dflt : pyval) : pyval :=
  default dflt (d !! key).

Definition dict_item (d : pydict) (key : string) : res pyval :=
  match d !! key with
  | Some v => Ok v
  | None => Raise (KeyError key)
  end.

(** [{**a, **b}]: the keys of [b] win. *)
Definition dict_merge (a b : pydict) : pydict := b ∪ a.

(** [v.get(key, default)] on an arbitrary value: only dicts have [get]. *)
Definition py_get (v : pyval) (key : string) (dflt : pyval) : res pyval :=
  match v with
  | VDict items => Ok (dict_get (list_to_map items) key dflt)
  | _ => Raise AttributeError
  end.

(** [xs[i]] on a list *)
Definition list_item {A} (xs : list A) (i : nat) : res A :=
  match xs !! i with
  | Some x => Ok x
  | None => Raise IndexError
  end.

(** ** Strings

    Characters are the code points below 256. *)

Definition nl : string := String (ascii_of_nat 10) "".
Definition dq : string := String (ascii_of_nat 34) "".

Definition lower_ascii (c : ascii) : ascii :=
  let n := nat_of_ascii c in
  if ((65 <=? n) && (n <=? 90))%nat then ascii_of_nat (n + 32)
  else if ((192 <=? n) && (n <=? 222) && negb (n =? 215))%nat
       then ascii_of_nat (n + 32)
  else c.

(** [s.lower()] *)
Fixpoint lower (s : string) : string :=
  match s with
  | EmptyString => EmptyString
  | String c s' => String (lower_ascii c) (lower s')
  end.

Fixpoint starts_with (p s : string) : bool :=
  match p, s with
  | EmptyString, _ => true
  | String a p', String b s' => Ascii.eqb a b && starts_with p' s'
  | String _ _, EmptyString => false
  end.

(** [needle in hay] on strings *)
Fixpoint contains (needle hay : string) : bool :=
  starts_with needle hay ||
  match hay with
  | EmptyString => false
  | String _ hay' => contains needle hay'
  end.

Definition is_space (c : ascii) : bool :=
  let n := nat_of_ascii c in
  ((9 <=? n) && (n <=? 13) || (28 <=? n) && (n <=? 32)
   || (n =? 133) || (n =? 160))%nat.

Fixpoint lstrip (s : string) : string :=
  match s with
  | EmptyString => EmptyString
  | String c s' => if is_space c then lstrip s' else s
  end.

Fixpoint rstrip (s : string) : string :=
  match s with
  | EmptyString => EmptyString
  | String c s' =>
      match rstrip s' with
      | EmptyString => if is_space c then EmptyString else String c EmptyString
      | r => String c r
      end
  end.

(** [s.strip()] *)
Definition strip (s : string) : string := rstrip (lstrip s).

(** [s.split(sep)] for a non-empty separator: [skip] characters of a
    separator that has just been found are still to be consumed, [cur] is
    the piece read so far. *)
Fixpoint split_go (sep : string) (skip : nat) (cur s : string) : list string :=
  match s with
  | EmptyString => [cur]
  | String c s' =>
      match skip with
      | S k => split_go sep k cur s'
      | O =>
          if starts_with sep s
          then cur :: split_go sep (String.length sep - 1) EmptyString s'
          else split_go sep 0 (cur +:+ String c EmptyString) s'
      end
  end.

Definition py_split (sep s : string) : list string := split_go sep 0 EmptyString s.

(** [re.search(r'\{[^}]+\}', s)]: the first opening brace that is followed
    by at least one character other than a closing brace and then by a
    closing brace. *)
Fixpoint until_close (s : string) : option string :=
  match s with
  | EmptyString => None
  | String c s' =>
      if Ascii.eqb c "}" then Some EmptyString
      else String c <$> until_close s'
  end.

Definition braces_here (s : string) : option string :=
  match s with
  | String c s' =>
      if Ascii.eqb c "{" then
        match until_close s' with
        | Some (String b body) => Some ("{" +:+ String b body +:+ "}")
        | _ => None
        end
      else None
  | EmptyString => None
  end.

Fixpoint re_search_braces (s : string) : option string :=
  match braces_here s with
  | Some m => Some m
  | None =>
      match s with
      | EmptyString => None
      | String _ s' => re_search_braces s'
      end
  end.

(** [sep.join(xs)] *)
Fixpoint join (sep : string) (xs : list string) : string :=
  match xs with
  | [] => ""
  | [x] => x
  | x :: xs' => x +:+ sep +:+ join sep xs'
  end.

(** ** Library functions and external services

    What the code calls but does not define is taken as given: any
    behaviour of these functions is allowed. *)

Record Env : Type := {
  (** [str(v)] of a value that is not a string *)
  str_of : pyval → string;
  (** [f"{x:.2f}"] *)
  format_2f : Q → string;
  (** [json.loads]; [None] is [json.JSONDecodeError] *)
  json_loads : string → option pyval;
  (** [float(s)] on a string; [None] is [ValueError] *)
  float_of_str : string → option Q;
  (** [d.strftime('%Y-%m-%d')] *)
  strftime_ymd : Z → string;
  (** [datetime.strptime(s, '%Y-%m-%d')]; [None] is [ValueError] *)
  strptime_ymd : string → option Z;
}.

(** One call to the classifier: [self.model.generate_content(prompt)]
    followed by [response.text]; [None] when either raises. *)
Definition Classifier : Type := string → option string.

(** ** gemini_client.py *)

Module GeminiClient.

Definition CATEGORIES : list string :=
  [ "Food & Dining";
    "Shopping";
    "Transportation";
    "Bills & Utilities";
    "Entertainment";
    "Healthcare";
    "Travel";
    "Education";
    "Personal Care";
    "Home & Garden";
    "Gifts & Donations";
    "Business Expenses";
    "Other" ].

(** [_build_prompt_template] *)
Definition prompt_template : string :=
  join nl
    [ "You are an expert financial transaction categorizer. ";
      "Analyze the following transaction and categorize it accurately.";
      "";
      "Available categories: " +:+ join ", " CATEGORIES;
      "";
      "For each transaction, provide:";
      "1. Primary category (one of the categories above)";
      "2. Subcategory (more specific, e.g., " +:+ dq +:+ "Groceries" +:+ dq
        +:+ " under " +:+ dq +:+ "Food & Dining" +:+ dq +:+ ")";
      "3. Confidence score (0.0 to 1.0)";
      "";
      "Return your response as a JSON object with this exact format:";
      "{";
      "    " +:+ dq +:+ "primary_category" +:+ dq +:+ ": " +:+ dq
        +:+ "category name" +:+ dq +:+ ",";
      "    " +:+ dq +:+ "subcategory" +:+ dq +:+ ": " +:+ dq
        +:+ "specific subcategory" +:+ dq +:+ ",";
      "    " +:+ dq +:+ "confidence" +:+ dq +:+ ": 0.95";
      "}";
      "";
      "Transaction details:";
      "" ].

(** [_find_closest_category]: the first category, in list order, that
    contains the lower-cased argument or is contained in it. *)
Definition close_to (category_lower cat : string) : bool :=
  contains category_lower (lower cat) || contains (lower cat) category_lower.

Definition _find_closest_category (category : pyval) : res (option string) :=
  match category with
  | VStr c =>
      let category_lower := lower c in
      Ok (List.find (close_to category_lower) CATEGORIES)
  | _ => Raise AttributeError       (* no [lower] on a non-string *)
  end.

(** [x in self.CATEGORIES] *)
Definition in_categories (x : pyval) : bool :=
  match x with
  | VStr c => bool_decide (c ∈ CATEGORIES)
  | _ => false
  end.

(** [x or 'Other'] where [x] is an optional string *)
Definition or_other (x : option string) : string :=
  match x with
  | None => "Other"
  | Some EmptyString => "Other"
  | Some c => c
  end.

Definition fallback : pydict :=
  {[ "primary_category" := VStr "Other";
     "subcategory" := VStr "Uncategorized";
     "confidence" := VFloat 0 ]}.

Section with_env.
Variable E : Env.

(** the value of a replacement field in an f-string *)
Definition py_format (v : pyval) : string :=
  match v with
  | VStr s => s
  | _ => str_of E v
  end.

(** [abs(v)] *)
Definition py_abs (v : pyval) : res Q :=
  match v with
  | VInt z => Ok (inject_Z (Z.abs z))
  | VFloat q => Ok (Qabs q)
  | VBool b => Ok (if b then 1%Q else 0%Q)
  | _ => Raise TypeError
  end.

(** [float(v)] *)
Definition py_float (v : pyval) : res Q :=
  match v with
  | VFloat q => Ok q
  | VInt z => Ok (inject_Z z)
  | VBool b => Ok (if b then 1%Q else 0%Q)
  | VStr s =>
      match float_of_str E s with
      | Some q => Ok q
      | None => Raise ValueError
      end
  | _ => Raise TypeError
  end.

Definition transaction_desc (transaction : pydict) : res string :=
  amount ← py_abs (dict_get transaction "amount" (VInt 0));
  Ok (join nl
    [ "";
      "Name: " +:+ py_format (dict_get transaction "name" (VStr "Unknown"));
      "Amount: $" +:+ format_2f E amount;
      "Merchant: " +:+ py_format (dict_get transaction "merchant_name" (VStr "N/A"));
      "Description: " +:+ py_format (dict_get transaction "description" (VStr "N/A"));
      "Date: " +:+ py_format (dict_get transaction "date" (VStr "N/A"));
      "" ]).

(** stripping a fenced code block *)
Definition extract_json (response_text : string) : res string :=
  if contains "```json" response_text then
    after ← list_item (py_split "```json" response_text) 1;
    inner ← list_item (py_split "```" after) 0;
    Ok (strip inner)
  else if contains "```" response_text then
    after ← list_item (py_split "```" response_text) 1;
    inner ← list_item (py_split "```" after) 0;
    Ok (strip inner)
  else Ok response_text.

(** [json.loads], with the second attempt on the first braced substring *)
Definition parse_json (response_text : string) : res pyval :=
  match json_loads E response_text with
  | Some result => Ok result
  | None =>
      match re_search_braces response_text with
      | Some json_match =>
          match json_loads E json_match with
          | Some result => Ok result
          | None => Raise JSONDecodeError
          end
      | None => Raise ValueError
      end
  end.

(** "Validate and normalize result" up to the [return] *)
Definition normalize (result : pyval) : res pydict :=
  primary_category ← py_get result "primary_category" (VStr "Other");
  primary_category ←
    (if negb (in_categories primary_category) then
       closest ← _find_closest_category primary_category;
       Ok (VStr (or_other closest))
     else Ok primary_category);
  subcategory ← py_get result "subcategory" (VStr "");
  confidence ← py_get result "confidence" (VFloat 0.5) ≫= py_float;
  Ok ({[ "primary_category" := primary_category;
         "subcategory" := subcategory;
         "confidence" := VFloat confidence ]} : pydict).

(** the body of the [try] in [categorize_transaction], up to the parsed
    answer of the classifier *)
Definition classify (model : Classifier) (transaction : pydict) : res pyval :=
  desc ← transaction_desc transaction;
  let prompt := prompt_template +:+ desc in
  response_text ← match model prompt with
                  | Some text => Ok (strip text)
                  | None => Raise ValueError
                  end;
  response_text ← extract_json response_text;
  parse_json response_text.

(** the whole body of the [try] *)
Definition categorize_body (model : Classifier) (transaction : pydict)
  : res pydict :=
  result ← classify model transaction;
  normalize result.

Definition categorize_transaction (model : Classifier) (transaction : pydict)
  : res pydict :=
  try_except (categorize_body model transaction)
    (λ e, (* logger.error(...) *) Ok fallback).

(** [categorize_batch]: the classifier is called once per transaction;
    [models i] is the behaviour of the [i]-th call. *)
Fixpoint categorize_batch_from (models : nat → Classifier) (i : nat)
    (transactions : list pydict) : res (list pydict) :=
  match transactions with
  | [] => Ok []
  | transaction :: rest =>
      categorization ← categorize_transaction (models i) transaction;
      results ← categorize_batch_from models (S i) rest;
      Ok (dict_merge transaction categorization :: results)
  end.

Definition categorize_batch (models : nat → Classifier)
    (transactions : list pydict) : res (list pydict) :=
  categorize_batch_from models 0%nat transactions.

End with_env.

End GeminiClient.

(** ** database.py

    The [transactions] table.  The surrogate key [id] is the position of
    the row in the table; [created_at] and [updated_at] are left out.
    Column types are not enforced; the [unique=True] constraint on
    [transaction_id] is. *)

Module Database.

Record Transaction : Type := {
  transaction_id : pyval;
  account_id : pyval;
  amount : pyval;
  date : pyval;
  name : pyval;
  merchant_name : pyval;
  category : pyval;
  category_confidence : pyval;
  primary_category : pyval;
  subcategory : pyval;
  description : pyval;
  is_pending : pyval;
  synced_to_sheets : bool;
}.

Definition mark_synced (row : Transaction) : Transaction :=
  {| transaction_id := transaction_id row;
     account_id := account_id row;
     amount := amount row;
     date := date row;
     name := name row;
     merchant_name := merchant_name row;
     category := category row;
     category_confidence := category_confidence row;
     primary_category := primary_category row;
     subcategory := subcategory row;
     description := description row;
     is_pending := is_pending row;
     synced_to_sheets := true |}.

(** A session: the committed table and the objects added but not yet
    flushed ([autoflush=False]). *)
Record Session : Type := {
  table : list Transaction;
  pending : list Transaction;
}.

Definition open_session (rows : list Transaction) : Session :=
  {| table := rows; pending := [] |}.

(** [db.add(row)] *)
Definition add (row : Transaction) (db : Session) : Session :=
  {| table := table db; pending := pending db ++ [row] |}.

(** The unique index: a non-NULL [transaction_id] may occur once. *)
Definition collides (row : Transaction) (rows : list Transaction) : bool :=
  negb (bool_decide (transaction_id row = VNone))
  && bool_decide (transaction_id row ∈ transaction_id <$> rows).

(** The INSERTs of a flush, one row after the other. *)
Fixpoint flush (rows new : list Transaction) : res (list Transaction) :=
  match new with
  | [] => Ok rows
  | row :: new' =>
      if collides row rows then Raise IntegrityError
      else flush (rows ++ [row]) new'
  end.

(** [db.commit()]: on a constraint violation the transaction is rolled
    back and the exception is raised. *)
Definition commit (db : Session) : res unit * Session :=
  match flush (table db) (pending db) with
  | Ok rows => (Ok (), {| table := rows; pending := [] |})
  | Raise e => (Raise e, {| table := table db; pending := [] |})
  end.

(** [db.query(Transaction).filter(Transaction.synced_to_sheets == False).all()]:
    the objects are the rows themselves, named here by their position. *)
Fixpoint unsynced_from (i : nat) (rows : list Transaction) : list nat :=
  match rows with
  | [] => []
  | row :: rows' =>
      if synced_to_sheets row then unsynced_from (S i) rows'
      else i :: unsynced_from (S i) rows'
  end.

Definition query_unsynced (db : Session) : list nat := unsynced_from 0 (table db).

(** [for tx in objs: tx.synced_to_sheets = True] *)
Definition set_synced (objs : list nat) (db : Session) : Session :=
  {| table := foldl (λ rows i, alter mark_synced i rows) (table db) objs;
     pending := pending db |}.

End Database.

(** ** plaid_client.py *)

Module PlaidClient.

(** A transaction object of the Plaid response.  The attributes read
    with [getattr(..., default)] may be missing. *)
Record PlaidTransaction : Type := {
  transaction_id : string;
  account_id : string;
  amount : Q;
  date : string;
  name : string;
  merchant_name : option pyval;
  original_description : option pyval;
  pending : option pyval;
  category : option pyval;
  category_id : option pyval;
}.

Section with_env.
Variable E : Env.

(** the dict built for one transaction in [get_transactions] *)
Definition transaction_dict (t : PlaidTransaction) : res pydict :=
  match strptime_ymd E (date t) with
  | None => Raise ValueError
  | Some day =>
      Ok ({[ "transaction_id" := VStr (transaction_id t);
             "account_id" := VStr (account_id t);
             "amount" := VFloat (amount t);
             "date" := VDate day;
             "name" := VStr (name t);
             "merchant_name" := default VNone (merchant_name t);
             "description" := default (VStr (name t)) (original_description t);
             "is_pending" := default (VBool false) (pending t);
             "category" := default VNone (category t);
             "category_id" := default VNone (category_id t) ]} : pydict)
  end.

(** [get_transactions]: [response] is what [self.client.transactions_get]
    does for the request of this run; any exception is logged and
    raised again. *)
Definition get_transactions (access_token : string)
    (response : res (list PlaidTransaction)) : res (list pydict) :=
  if bool_decide (access_token = "") then Raise ValueError
  else
    match response with
    | Raise e => Raise e
    | Ok transactions => mapM transaction_dict transactions
    end.

(** [get_all_transactions_since]: the window only shapes the request. *)
Definition get_all_transactions_since (access_token : string)
    (response : res (list PlaidTransaction)) : res (list pydict) :=
  get_transactions access_token response.

End with_env.

End PlaidClient.

(** ** sheets_client.py *)

Module SheetsClient.

(** The sheet "Transactions" of the spreadsheet: absent, or its rows. *)
Definition Sheet : Type := option (list (list pyval)).

(** Which request to the Sheets API fails with [HttpError], if any. *)
Inductive Fault : Type :=
  | NoFault
  | GetFails        (* spreadsheets().get *)
  | AddSheetFails   (* spreadsheets().batchUpdate *)
  | ClearFails      (* values().clear *)
  | UpdateFails.    (* values().update *)

Definition headers : list pyval :=
  VStr <$> [ "Date"; "Name"; "Merchant"; "Amount"; "Primary Category";
             "Subcategory"; "Description"; "Confidence"; "Transaction ID" ].

Section with_env.
Variable E : Env.
Variable spreadsheet_id : option string.
Variable fault : Fault.

(** [not self.spreadsheet_id] *)
Definition no_spreadsheet : bool :=
  match spreadsheet_id with
  | None => true
  | Some id => bool_decide (id = "")
  end.

(** [create_sheet_if_not_exists]; called with a spreadsheet id *)
Definition create_sheet_if_not_exists (sheet : Sheet) : res unit * Sheet :=
  match fault with
  | GetFails => (Raise HttpError, sheet)
  | _ =>
      match sheet with
      | Some _ => (Ok (), sheet)
      | None =>
          match fault with
          | AddSheetFails => (Raise HttpError, sheet)
          | _ => (Ok (), Some [])
          end
      end
  end.

Definition date_cell (tx : pydict) : pyval :=
  match dict_get tx "date" (VStr "") with
  | VDate day => VStr (strftime_ymd E day)
  | VStr s => VStr s
  | v => VStr (str_of E v)
  end.

Definition sheet_row (tx : pydict) : list pyval :=
  [ date_cell tx;
    dict_get tx "name" (VStr "");
    dict_get tx "merchant_name" (VStr "");
    dict_get tx "amount" (VInt 0);
    dict_get tx "primary_category" (VStr "");
    dict_get tx "subcategory" (VStr "");
    dict_get tx "description" (VStr "");
    dict_get tx "category_confidence" (VInt 0);
    dict_get tx "transaction_id" (VStr "") ].

(** [sync_transactions]: returns at once when no spreadsheet is
    configured; otherwise clears the sheet and writes the header and
    one row per transaction. *)
Definition sync_transactions (transactions : list pydict) (sheet : Sheet)
  : res unit * Sheet :=
  if no_spreadsheet then (Ok (), sheet)          (* "Skipping sync." *)
  else
    let '(created, sheet) := create_sheet_if_not_exists sheet in
    match created with
    | Raise e => (Raise e, sheet)
    | Ok _ =>
        let values := headers :: (sheet_row <$> transactions) in
        match fault with
        | ClearFails => (Raise HttpError, sheet)
        | UpdateFails => (Raise HttpError, Some [])
        | _ => (Ok (), Some values)
        end
    end.

(** [append_transactions]: returns at once when no spreadsheet is
    configured or when there is nothing to append; otherwise one
    [values().append] request, which fails with [HttpError] when
    [append_fails] or when the sheet does not exist, and which adds the
    rows below the rows the sheet has. *)
Definition append_transactions (append_fails : bool)
    (transactions : list pydict) (sheet : Sheet) : res unit * Sheet :=
  if no_spreadsheet then (Ok (), sheet)          (* "Skipping append." *)
  else
    let values := sheet_row <$> transactions in
    match values with
    | [] => (Ok (), sheet)
    | _ =>
        match sheet with
        | Some rows =>
            if append_fails then (Raise HttpError, sheet)
            else (Ok (), Some (rows ++ values)%list)
        | None => (Raise HttpError, sheet)
        end
    end.

End with_env.

End SheetsClient.

(** ** main.py *)

Module SpendSmart.

(** What persists between runs: the table and the spreadsheet. *)
Record World : Type := {
  rows : list Database.Transaction;
  sheet : SheetsClient.Sheet;
}.

(** What the outside does during one run. *)
Record Outside : Type := {
  access_token : string;
  response : res (list PlaidClient.PlaidTransaction);
  models : nat → Classifier;
  spreadsheet_id : option string;
  fault : SheetsClient.Fault;
}.

(** [x in ids] for a set [ids]: the element has to be hashable. *)
Definition in_set (x : pyval) (ids : list pyval) : res bool :=
  match x with
  | VList _ | VDict _ => Raise TypeError
  | _ => Ok (bool_decide (x ∈ ids))
  end.

(** [[tx for tx in transactions if tx['transaction_id'] not in existing_ids]] *)
Fixpoint new_only (existing_ids : list pyval) (transactions : list pydict)
  : res (list pydict) :=
  match transactions with
  | [] => Ok []
  | tx :: rest =>
      id ← dict_item tx "transaction_id";
      known ← in_set id existing_ids;
      new ← new_only existing_ids rest;
      Ok (if (known : bool) then new else tx :: new)
  end.

(** a number as [sum] and [/] see it *)
Definition py_number (v : pyval) : res Q :=
  match v with
  | VInt z => Ok (inject_Z z)
  | VFloat q => Ok q
  | VBool b => Ok (if b then 1%Q else 0%Q)
  | _ => Raise TypeError
  end.

(** [sum(tx.get('confidence', 0) for tx in txs)] *)
Fixpoint sum_confidence (txs : list pydict) : res Q :=
  match txs with
  | [] => Ok 0%Q
  | tx :: rest =>
      c ← py_number (dict_get tx "confidence" (VInt 0));
      s ← sum_confidence rest;
      Ok (c + s)%Q
  end.

(** [sum(...) / len(txs) if txs else 0] *)
Definition average_confidence (txs : list pydict) : res pyval :=
  match txs with
  | [] => Ok (VInt 0)
  | _ =>
      s ← sum_confidence txs;
      Ok (VFloat (s / inject_Z (Z.of_nat (length txs))))
  end.

Section with_env.
Variable E : Env.

(** [Transaction(transaction_id=tx['transaction_id'], ...)] *)
Definition make_row (tx : pydict) : res Database.Transaction :=
  transaction_id ← dict_item tx "transaction_id";
  account_id ← dict_item tx "account_id";
  amount ← dict_item tx "amount";
  date ← dict_item tx "date";
  name ← dict_item tx "name";
  Ok {| Database.transaction_id := transaction_id;
        Database.account_id := account_id;
        Database.amount := amount;
        Database.date := date;
        Database.name := name;
        Database.merchant_name := dict_get tx "merchant_name" VNone;
        Database.description := dict_get tx "description" VNone;
        Database.is_pending := dict_get tx "is_pending" (VBool false);
        Database.category :=
          VStr (GeminiClient.py_format E (dict_get tx "primary_category" (VStr "Other"))
                +:+ " - "
                +:+ GeminiClient.py_format E (dict_get tx "subcategory" (VStr "")));
        Database.primary_category := dict_get tx "primary_category" (VStr "Other");
        Database.subcategory := dict_get tx "subcategory" (VStr "");
        Database.category_confidence := dict_get tx "confidence" (VFloat 0);
        Database.synced_to_sheets := false |}.

(** Step 4, the loop: a row whose construction raises is logged and
    skipped. *)
Fixpoint store_rows (txs : list pydict) (db : Database.Session)
    (stored_count : nat) : Database.Session * nat :=
  match txs with
  | [] => (db, stored_count)
  | tx :: rest =>
      match make_row tx with
      | Ok db_transaction =>
          store_rows rest (Database.add db_transaction db) (S stored_count)
      | Raise e => (* logger.error(...) *)
          store_rows rest db stored_count
      end
  end.

(** the dict handed to the sheets client for one row *)
Definition sheets_dict (tx : Database.Transaction) : pydict :=
  {[ "date" := Database.date tx;
     "name" := Database.name tx;
     "merchant_name" := Database.merchant_name tx;
     "amount" := Database.amount tx;
     "primary_category" := Database.primary_category tx;
     "subcategory" := Database.subcategory tx;
     "description" := Database.description tx;
     "category_confidence" := Database.category_confidence tx;
     "transaction_id" := Database.transaction_id tx ]}.

(** Step 5, the body of the [try]: the result is [synced_count]. *)
Definition sync_step (o : Outside) (db : Database.Session)
    (sh : SheetsClient.Sheet)
  : res nat * Database.Session * SheetsClient.Sheet :=
  let unsynced := Database.query_unsynced db in
  match unsynced with
  | [] => (Ok 0%nat, db, sh)
  | _ =>
      let sheets_data :=
        omap (λ i, sheets_dict <$> Database.table db !! i) unsynced in
      let '(pushed, sh') :=
        SheetsClient.sync_transactions E (spreadsheet_id o) (fault o)
          sheets_data sh in
      match pushed with
      | Raise e => (Raise e, db, sh')
      | Ok _ =>
          let db := Database.set_synced unsynced db in
          let '(committed, db') := Database.commit db in
          match committed with
          | Raise e => (Raise e, db', sh')
          | Ok _ => (Ok (length unsynced), db', sh')
          end
      end
  end.

(** Step 4: the loop, then [db.commit()], which is outside the [try]
    of the loop. *)
Definition persist (categorized_transactions : list pydict)
    (db : Database.Session) : res nat * Database.Session :=
  let '(db, stored_count) := store_rows categorized_transactions db 0 in
  let '(committed, db) := Database.commit db in
  match committed with
  | Raise e => (Raise e, db)
  | Ok _ => (Ok stored_count, db)
  end.

(** Step 5: [synced_count] stays 0 when the step is skipped or raises. *)
Definition sync (o : Outside) (sync_to_sheets : bool)
    (categorized_transactions : list pydict) (db : Database.Session)
    (sh : SheetsClient.Sheet) : nat * Database.Session * SheetsClient.Sheet :=
  if sync_to_sheets && negb (bool_decide (categorized_transactions = []))
  then
    let '(synced, db', sh') := sync_step o db sh in
    match synced with
    | Ok synced_count => (synced_count, db', sh')
    | Raise e => (* logger.error(...) *) (0%nat, db', sh')
    end
  else (0%nat, db, sh).

(** the statistics of a run that stops early *)
Definition short_stats (total_fetched : nat) : pydict :=
  {[ "total_fetched" := VInt (Z.of_nat total_fetched);
     "new_transactions" := VInt 0;
     "categorized" := VInt 0;
     "synced_to_sheets" := VInt 0 ]}.

(** Step 6 *)
Definition full_stats (transactions new_transactions
    categorized_transactions : list pydict) (avg_confidence : pyval)
    (synced_count : nat) : pydict :=
  {[ "total_fetched" := VInt (Z.of_nat (length transactions));
     "new_transactions" := VInt (Z.of_nat (length new_transactions));
     "categorized" := VInt (Z.of_nat (length categorized_transactions));
     "average_confidence" := avg_confidence;
     "synced_to_sheets" := VInt (Z.of_nat synced_count);
     "categories_used" :=
       VInt (Z.of_nat (length (remove_dups
         ((λ tx, dict_get tx "primary_category" (VStr "Other"))
            <$> categorized_transactions)))) ]}.

Definition close (db : Database.Session) (sh : SheetsClient.Sheet) : World :=
  {| rows := Database.table db; sheet := sh |}.

(** [fetch_and_process_transactions].  The [try ... finally] of the
    source only closes the session; it catches nothing. *)
Definition fetch_and_process_transactions (o : Outside)
    (sync_to_sheets : bool) (w : World) : res pydict * World :=
  (* Step 1 *)
  match PlaidClient.get_all_transactions_since E (access_token o) (response o) with
  | Raise e => (Raise e, w)
  | Ok [] => (Ok (short_stats 0), w)
  | Ok transactions =>
      let db := Database.open_session (rows w) in
      (* Step 2 *)
      let existing_ids := Database.transaction_id <$> Database.table db in
      match new_only existing_ids transactions with
      | Raise e => (Raise e, close db (sheet w))
      | Ok [] => (Ok (short_stats (length transactions)), close db (sheet w))
      | Ok new_transactions =>
          (* Step 3 *)
          match GeminiClient.categorize_batch E (models o) new_transactions with
          | Raise e => (Raise e, close db (sheet w))
          | Ok categorized_transactions =>
              match average_confidence categorized_transactions with
              | Raise e => (Raise e, close db (sheet w))
              | Ok avg_confidence =>
                  let '(stored, db) := persist categorized_transactions db in
                  match stored with
                  | Raise e => (Raise e, close db (sheet w))
                  | Ok stored_count =>
                      let '(synced_count, db, sh) :=
                        sync o sync_to_sheets categorized_transactions db (sheet w) in
                      (Ok (full_stats transactions new_transactions
                             categorized_transactions avg_confidence synced_count),
                       close db sh)
                  end
              end
          end
      end
  end.

(** The statistics [main] prints: each one is read with [stats[key]]. *)
Definition summary_keys : list string :=
  [ "total_fetched"; "new_transactions"; "categorized";
    "average_confidence"; "categories_used"; "synced_to_sheets" ].

(** [main], up to the summary: an exception is logged and raised again. *)
Definition main (o : Outside) (w : World) : res (list pyval) * World :=
  match fetch_and_process_transactions o true w with
  | (Raise e, w') => (Raise e, w')
  | (Ok stats, w') => (mapM (dict_item stats) summary_keys, w')
  end.

End with_env.

(** [get_category_summary].  The result is a dict from category to
    [{'count': ..., 'total': ...}]; it is kept as the list of its items
    in insertion order. *)
Record Totals : Type := {
  count : nat;
  total : Q;
}.

(** the truth value of a Python value *)
Definition truthy (v : pyval) : bool :=
  match v with
  | VNone => false
  | VBool b => b
  | VInt z => negb (bool_decide (z = 0))
  | VFloat q => negb (Qeq_bool q 0)
  | VStr s => negb (bool_decide (s = ""))
  | VDate _ => true
  | VList items => negb (bool_decide (items = []))
  | VDict items => negb (bool_decide (items = []))
  end.

(** [v or 'Other'] *)
Definition or_Other (v : pyval) : pyval :=
  if truthy v then v else VStr "Other".

(** the two [+=] on the entry of [category], which is first created with
    count 0 and total 0.0 when the dict does not have it *)
Fixpoint add_to_category (category : pyval) (x : Q)
    (category_totals : list (pyval * Totals)) : list (pyval * Totals) :=
  match category_totals with
  | [] => [(category, {| count := 1; total := 0 + x |})]
  | (k, t) :: rest =>
      if decide (k = category)
      then (k, {| count := S (count t); total := total t + x |}) :: rest
      else (k, t) :: add_to_category category x rest
  end.

Fixpoint summary_loop (transactions : list Database.Transaction)
    (category_totals : list (pyval * Totals)) : res (list (pyval * Totals)) :=
  match transactions with
  | [] => Ok category_totals
  | tx :: rest =>
      let category := or_Other (Database.primary_category tx) in
      (* a dict key has to be hashable *)
      _ ← in_set category [];
      amount ← GeminiClient.py_abs (Database.amount tx);
      summary_loop rest (add_to_category category amount category_totals)
  end.

Definition get_category_summary (w : World) : res (list (pyval * Totals)) :=
  summary_loop (rows w) [].

End SpendSmart.

(** ** A concrete outside world, for examples *)

Module Demo.

Definition quoted (s : string) : string := dq +:+ s +:+ dq.

(** [{"primary_category": p, "subcategory": s, "confidence": c}] as text *)
Definition answer_text (p s c : string) : string :=
  "{" +:+ quoted "primary_category" +:+ ": " +:+ quoted p +:+ ", "
      +:+ quoted "subcategory" +:+ ": " +:+ quoted s +:+ ", "
      +:+ quoted "confidence" +:+ ": " +:+ c +:+ "}".

Definition answer (p s : string) (c : Q) : pyval :=
  VDict [ ("primary_category", VStr p); ("subcategory", VStr s);
          ("confidence", VFloat c) ].

(** a [json.loads] that knows a few texts *)
Definition loads (text : string) : option pyval :=
  if String.eqb text (answer_text "Shopping" "Clothing" "0.9")
  then Some (answer "Shopping" "Clothing" 0.9)
  else if String.eqb text (answer_text "food" "Groceries" "0.6")
  then Some (answer "food" "Groceries" 0.6)
  else if String.eqb text (answer_text "Shopping" "Clothing" "1.5")
  then Some (answer "Shopping" "Clothing" 1.5)
  else if String.eqb text "[1, 2]"
  then Some (VList [VInt 1; VInt 2])
  else None.

Definition env : Env :=
  {| str_of := λ _, "?";
     format_2f := λ _, "0.00";
     json_loads := loads;
     float_of_str := λ _, None;
     strftime_ymd := λ _, "2024-01-01";
     strptime_ymd := λ _, Some 19723 |}.

Definition says (text : string) : Classifier := λ _, Some text.
Definition down : Classifier := λ _, None.

Definition purchase (id : string) : PlaidClient.PlaidTransaction :=
  {| PlaidClient.transaction_id := id;
     PlaidClient.account_id := "acc-1";
     PlaidClient.amount := 12.5;
     PlaidClient.date := "2024-01-01";
     PlaidClient.name := "ACME STORE";
     PlaidClient.merchant_name := Some (VStr "Acme");
     PlaidClient.original_description := None;
     PlaidClient.pending := Some (VBool false);
     PlaidClient.category := None;
     PlaidClient.category_id := None |}.

Definition tx1 : pydict :=
  {[ "transaction_id" := VStr "t1"; "name" := VStr "ACME STORE";
     "amount" := VFloat 12.5 ]}.

Definition empty_world : SpendSmart.World :=
  {| SpendSmart.rows := []; SpendSmart.sheet := None |}.

Definition outside (feed : list PlaidClient.PlaidTransaction)
    (models : nat → Classifier) (spreadsheet : option string)
    (fault : SheetsClient.Fault) : SpendSmart.Outside :=
  {| SpendSmart.access_token := "access-sandbox";
     SpendSmart.response := Ok feed;
     SpendSmart.models := models;
     SpendSmart.spreadsheet_id := spreadsheet;
     SpendSmart.fault := fault |}.

(** a row of an earlier run whose sync failed *)
Definition stored_t1 : Database.Transaction :=
  {| Database.transaction_id := VStr "t1";
     Database.account_id := VStr "acc-1";
     Database.amount := VFloat 12.5;
     Database.date := VDate 19723;
     Database.name := VStr "ACME STORE";
     Database.merchant_name := VStr "Acme";
     Database.category := VStr "Shopping - Clothing";
     Database.category_confidence := VFloat 0.9;
     Database.primary_category := VStr "Shopping";
     Database.subcategory := VStr "Clothing";
     Database.description := VStr "ACME STORE";
     Database.is_pending := VBool false;
     Database.synced_to_sheets := false |}.

Definition stale_world : SpendSmart.World :=
  {| SpendSmart.rows := [stored_t1]; SpendSmart.sheet := None |}.

Definition shopping : Classifier := says (answer_text "Shopping" "Clothing" "0.9").

(** the classifier answers the first call, fails on the second and
    answers the third *)
Definition fails_once (call : nat) : Classifier :=
  match call with
  | 0%nat => shopping
  | 1%nat => down
  | _ => says (answer_text "food" "Groceries" "0.6")
  end.

(** the feeds of the examples *)
Definition two_purchases : SpendSmart.Outside :=
  outside [purchase "t1"; purchase "t2"] (λ _, shopping) (Some "sheet-1")
    SheetsClient.NoFault.

Definition same_feed_later : SpendSmart.Outside :=
  outside [purchase "t1"; purchase "t2"] (λ _, down) None SheetsClient.ClearFails.

Definition three_purchases : SpendSmart.Outside :=
  outside [purchase "t1"; purchase "t2"; purchase "t3"] fails_once None
    SheetsClient.NoFault.

Definition unconfigured : SpendSmart.Outside :=
  outside [purchase "t1"] (λ _, shopping) None SheetsClient.NoFault.

Definition repeated_id : SpendSmart.Outside :=
  outside [purchase "t1"; purchase "t2"; purchase "t1"] (λ _, shopping)
    (Some "sheet-1") SheetsClient.NoFault.

Definition empty_feed : SpendSmart.Outside :=
  outside [] (λ _, shopping) (Some "sheet-1") SheetsClient.NoFault.

End Demo.


(** ** More of the outside world, for further examples *)

Module DemoMore.
Import Demo.

(** an answer without any key, and one whose category is a number *)
Definition bare_text : string := "{}".

Definition odd_text : string :=
  "{" +:+ quoted "primary_category" +:+ ": 5, "
      +:+ quoted "confidence" +:+ ": 0.9}".

Definition loads_more (text : string) : option pyval :=
  if String.eqb text bare_text then Some (VDict [])
  else if String.eqb text odd_text
  then Some (VDict [ ("primary_category", VInt 5); ("confidence", VFloat 0.9) ])
  else loads text.

(** as [env], with the two answers above and a [strptime] that knows one
    date *)
Definition env_more : Env :=
  {| str_of := str_of env;
     format_2f := format_2f env;
     json_loads := loads_more;
     float_of_str := float_of_str env;
     strftime_ymd := strftime_ymd env;
     strptime_ymd := λ s, if String.eqb s "2024-01-01" then Some 19723 else None |}.

Definition tx_no_amount : pydict :=
  {[ "transaction_id" := VStr "t9"; "name" := VStr "ACME STORE";
     "amount" := VNone ]}.

(** a transaction whose date is not a date *)
Definition undated (id : string) : PlaidClient.PlaidTransaction :=
  {| PlaidClient.transaction_id := id;
     PlaidClient.account_id := "acc-1";
     PlaidClient.amount := 12.5;
     PlaidClient.date := "soon";
     PlaidClient.name := "ACME STORE";
     PlaidClient.merchant_name := None;
     PlaidClient.original_description := None;
     PlaidClient.pending := None;
     PlaidClient.category := None;
     PlaidClient.category_id := None |}.

Definition row_of (id : string) (category amount : pyval) (synced : bool)
  : Database.Transaction :=
  {| Database.transaction_id := VStr id;
     Database.account_id := VStr "acc-1";
     Database.amount := amount;
     Database.date := VDate 19723;
     Database.name := VStr "ACME STORE";
     Database.merchant_name := VNone;
     Database.category := VNone;
     Database.category_confidence := VFloat 0.9;
     Database.primary_category := category;
     Database.subcategory := VStr "";
     Database.description := VNone;
     Database.is_pending := VBool false;
     Database.synced_to_sheets := synced |}.

Definition mixed_world : SpendSmart.World :=
  {| SpendSmart.rows :=
       [ row_of "t1" (VStr "Shopping") (VFloat 12.5) true;
         row_of "t2" VNone (VFloat (-3)) false;
         row_of "t3" (VStr "Shopping") (VInt 1) false ];
     SpendSmart.sheet := Some [SheetsClient.headers] |}.

Definition broken_world : SpendSmart.World :=
  {| SpendSmart.rows := [ row_of "t1" (VStr "Shopping") VNone true ];
     SpendSmart.sheet := None |}.

Definition failing_sheet : SpendSmart.Outside :=
  outside [purchase "t4"] (λ _, shopping) (Some "sheet-1") SheetsClient.UpdateFails.

(** the same feed once the sheet works *)
Definition working_sheet : SpendSmart.Outside :=
  outside [purchase "t4"] (λ _, shopping) (Some "sheet-1") SheetsClient.NoFault.

Definition all_down : SpendSmart.Outside :=
  outside [purchase "t4"; purchase "t5"] (λ _, down) None SheetsClient.NoFault.

Definition no_token : SpendSmart.Outside :=
  {| SpendSmart.access_token := "";
     SpendSmart.response := Ok [purchase "t4"];
     SpendSmart.models := λ _, shopping;
     SpendSmart.spreadsheet_id := Some "sheet-1";
     SpendSmart.fault := SheetsClient.NoFault |}.

End DemoMore.

(** * Properties *)

Local Open Scope list_scope.

(** ** The error monad *)

Lemma bind_Ok {A B} (m : res A) (k : A → res B) (b : B) :
  m ≫= k = Ok b ↔ ∃ a, m = Ok a ∧ k a = Ok b.
Proof.
  destruct m as [a|e]; simpl; split.
  - eauto.
  - intros (a' & [= <-] & Hk). exact Hk.
  - discriminate.
  - intros (a' & [=] & _).
Qed.

Lemma bind_Raise {A B} (m : res A) (k : A → res B) (e : exn) :
  m = Raise e → m ≫= k = Raise e.
Proof. intros ->. reflexivity. Qed.

Lemma try_except_Ok {A} (body : res A) (handler : exn → res A) (a : A) :
  try_except body handler = Ok a ↔
  body = Ok a ∨ ∃ e, body = Raise e ∧ handler e = Ok a.
Proof.
  destruct body as [a'|e]; simpl; split.
  - intros [= <-]. left. reflexivity.
  - intros [[= <-]|(e & [=] & _)]. reflexivity.
  - intros H. right. eauto.
  - intros [[=]|(e' & [= <-] & H)]. exact H.
Qed.

Lemma value_Ok {A} (dflt : A) (m : res A) : is_ok m = true → m = Ok (value dflt m).
Proof. by destruct m. Qed.

Lemma value_Ok_pair {A B} (dflt : A) (x : res A * B) :
  is_ok x.1 = true → x = (Ok (value dflt x.1), x.2).
Proof. destruct x as [[a|e] b]; by cbn. Qed.

(** in [H : (x ← m; k) = Ok b], name the value of [m] *)
Ltac bind_inv H :=
  let a := fresh "a" in
  let Ha := fresh "Ha" in
  apply bind_Ok in H as (a & Ha & H).

(** ** Lists *)

Lemma filter_none {A} (P : A → Prop) `{∀ x, Decision (P x)} (l : list A) :
  Forall (λ x, ¬ P x) l → filter P l = [].
Proof.
  induction 1 as [|x l Hx _ IH]; [reflexivity|].
  by rewrite filter_cons, decide_False.
Qed.

(** ** Strings *)

Lemma split_go_nonempty sep skip cur s : split_go sep skip cur s ≠ [].
Proof.
  revert skip cur. induction s as [|c s IH]; intros skip cur; simpl.
  - discriminate.
  - destruct skip; [destruct (starts_with sep _)|]; try discriminate; apply IH.
Qed.

(** A text that contains the separator splits into two pieces at least,
    so that [text.split(sep)[1]] exists. *)
Lemma split_contains sep cur s :
  sep ≠ EmptyString → contains sep s = true →
  ∃ x y rest, split_go sep 0 cur s = x :: y :: rest.
Proof.
  intros Hsep. revert cur. induction s as [|c s IH]; intros cur Hc.
  - destruct sep; [congruence | discriminate].
  - cbn [contains] in Hc. cbn [split_go].
    destruct (starts_with sep (String c s)) eqn:Hp.
    + destruct (split_go sep (String.length sep - 1) EmptyString s) as [|y rest] eqn:Hs.
      * exfalso. exact (split_go_nonempty _ _ _ _ Hs).
      * eauto.
    + simpl in Hc. apply IH. exact Hc.
Qed.

Lemma py_split_contains sep s :
  sep ≠ EmptyString → contains sep s = true →
  ∃ x y rest, py_split sep s = x :: y :: rest.
Proof. apply split_contains. Qed.

Lemma py_split_head sep s : ∃ x rest, py_split sep s = x :: rest.
Proof.
  unfold py_split. destruct (split_go sep 0 EmptyString s) as [|x rest] eqn:Hs.
  - exfalso. exact (split_go_nonempty _ _ _ _ Hs).
  - eauto.
Qed.

Lemma starts_with_spec p s :
  starts_with p s = true ↔ ∃ r, s = p +:+ r.
Proof.
  revert s. induction p as [|a p IH]; intros s; simpl.
  - split; [eauto | done].
  - destruct s as [|b s]; [split; [done | intros [r [=]]]|].
    rewrite andb_true_iff, IH. split.
    + intros [->%Ascii.eqb_eq [r ->]]. eauto.
    + intros [r [= -> ->]]. split; [apply Ascii.eqb_refl | eauto].
Qed.

(** [contains needle hay] is the substring relation. *)
Lemma contains_spec needle hay :
  contains needle hay = true ↔ ∃ l r, hay = l +:+ needle +:+ r.
Proof.
  induction hay as [|c hay IH]; cbn [contains]; rewrite orb_true_iff, starts_with_spec.
  - split.
    + intros [[r ->]|[=]]. by exists EmptyString, r.
    + intros ([|? l] & r & H); [left; eauto | discriminate].
  - rewrite IH. split.
    + intros [[r ->]|(l & r & ->)]; [by exists EmptyString, r|].
      by exists (String c l), r.
    + intros ([|c' l] & r & H); [left; eauto|].
      injection H as -> ->. right. eauto.
Qed.

(** ** gemini_client.py *)

Module GeminiFacts.
Import GeminiClient.

(** A result as the docstring of [categorize_transaction] promises it:
    exactly the three keys, a category of the list, a float confidence. *)
Definition well_formed (r : pydict) : Prop :=
  ∃ (c : string) (sub : pyval) (conf : Q),
    r = {[ "primary_category" := VStr c;
           "subcategory" := sub;
           "confidence" := VFloat conf ]}
    ∧ c ∈ CATEGORIES.

(** the first category close to [raw], else "Other" *)
Definition closest_or_other (raw : string) : string :=
  match List.find (close_to (lower raw)) CATEGORIES with
  | Some c => c
  | None => "Other"
  end.

Lemma Other_in_CATEGORIES : "Other" ∈ CATEGORIES.
Proof. apply list_elem_of_In. simpl. tauto. Qed.

Lemma find_in_CATEGORIES f c : List.find f CATEGORIES = Some c → c ∈ CATEGORIES.
Proof. intros H. apply find_some in H as [H _]. apply list_elem_of_In, H. Qed.

Lemma or_other_closest raw :
  or_other (List.find (close_to (lower raw)) CATEGORIES) = closest_or_other raw.
Proof.
  unfold closest_or_other.
  destruct (List.find _ _) as [c|] eqn:Hf; [|reflexivity].
  apply find_in_CATEGORIES in Hf.
  destruct c; [|reflexivity].
  apply list_elem_of_In in Hf. simpl in Hf. intuition discriminate.
Qed.

Lemma closest_or_other_in raw : closest_or_other raw ∈ CATEGORIES.
Proof.
  unfold closest_or_other. destruct (List.find _ _) eqn:Hf.
  - eapply find_in_CATEGORIES, Hf.
  - apply Other_in_CATEGORIES.
Qed.

(** [close_to] says that one lower-cased name is a substring of the other. *)
Lemma close_to_spec raw c :
  close_to (lower raw) c = true ↔
  (∃ l r, lower c = l +:+ lower raw +:+ r) ∨ (∃ l r, lower raw = l +:+ lower c +:+ r).
Proof. unfold close_to. by rewrite orb_true_iff, !contains_spec. Qed.

Lemma find_first {A} (f : A → bool) pre x post :
  Forall (λ y, f y = false) pre → f x = true →
  List.find f (pre ++ x :: post) = Some x.
Proof.
  intros Hpre Hx. induction Hpre as [|y pre Hy _ IH]; cbn.
  - by rewrite Hx.
  - by rewrite Hy.
Qed.

Lemma find_none_all {A} (f : A → bool) l :
  Forall (λ y, f y = false) l → List.find f l = None.
Proof. induction 1 as [|y l Hy _ IH]; cbn; [done | by rewrite Hy]. Qed.

Lemma fallback_well_formed : well_formed fallback.
Proof. exists "Other", (VStr "Uncategorized"), 0%Q. split; [reflexivity | apply Other_in_CATEGORIES]. Qed.

Section with_env.
Variable E : Env.

(** What [normalize] returns when it returns. *)
Lemma normalize_Ok result r :
  normalize E result = Ok r →
  ∃ items raw conf,
    result = VDict items
    ∧ dict_get (list_to_map items) "primary_category" (VStr "Other") = VStr raw
    ∧ py_float E (dict_get (list_to_map items) "confidence" (VFloat 0.5)) = Ok conf
    ∧ r = {[ "primary_category" :=
               VStr (if bool_decide (raw ∈ CATEGORIES) then raw
                     else closest_or_other raw);
             "subcategory" := dict_get (list_to_map items) "subcategory" (VStr "");
             "confidence" := VFloat conf ]}.
Proof.
  unfold normalize. intros H.
  destruct result; try discriminate. simpl in H.
  set (d := list_to_map items) in *.
  destruct (dict_get d "primary_category" (VStr "Other")) as [| | | |raw| | |] eqn:Hp;
    simpl in H; try discriminate.
  exists items, raw. fold d. rewrite Hp.
  destruct (py_float E (dict_get d "confidence" (VFloat 0.5))) as [conf|] eqn:Hc.
  - exists conf. repeat split; [].
    rewrite <- or_other_closest.
    destruct (bool_decide (raw ∈ CATEGORIES)); simpl in H;
      injection H as <-; reflexivity.
  - destruct (bool_decide (raw ∈ CATEGORIES)); simpl in H; discriminate.
Qed.

Lemma normalize_well_formed result r : normalize E result = Ok r → well_formed r.
Proof.
  intros (items & raw & conf & _ & _ & _ & ->)%normalize_Ok.
  eexists _, _, _. split; [reflexivity|].
  case_bool_decide; [assumption | apply closest_or_other_in].
Qed.

(** [categorize_transaction] returns, and what it returns is either what
    [normalize] made of the classifier's answer or the fallback. *)
Lemma categorize_transaction_cases model tx :
  (∃ result r, classify E model tx = Ok result ∧ normalize E result = Ok r
               ∧ categorize_transaction E model tx = Ok r)
  ∨ ((∃ e, categorize_body E model tx = Raise e)
     ∧ categorize_transaction E model tx = Ok fallback).
Proof.
  unfold categorize_transaction, categorize_body.
  destruct (classify E model tx) as [result|e] eqn:Hc; simpl.
  - destruct (normalize E result) as [r|e] eqn:Hn; simpl; eauto 6.
  - eauto.
Qed.

Lemma categorize_transaction_well_formed model tx r :
  categorize_transaction E model tx = Ok r → well_formed r.
Proof.
  destruct (categorize_transaction_cases model tx)
    as [(result & r' & _ & Hn & ->)|[_ ->]]; intros [= <-].
  - eapply normalize_well_formed, Hn.
  - apply fallback_well_formed.
Qed.

(** Stripping the code fence never raises. *)
Lemma extract_json_Ok text : ∃ payload, extract_json text = Ok payload.
Proof.
  unfold extract_json.
  destruct (contains "```json" text) eqn:H1.
  - apply py_split_contains in H1 as (x & y & rest & ->); [|discriminate].
    simpl. destruct (py_split_head "```" y) as (z & rest' & ->). simpl. eauto.
  - destruct (contains "```" text) eqn:H2; [|eauto].
    apply py_split_contains in H2 as (x & y & rest & ->); [|discriminate].
    simpl. destruct (py_split_head "```" y) as (z & rest' & ->). simpl. eauto.
Qed.

End with_env.

End GeminiFacts.

(** ** database.py *)

Module DatabaseFacts.
Import Database.

(** the rows the sync step is about *)
Definition unsynced_rows (rows : list Transaction) : list Transaction :=
  filter (λ row, synced_to_sheets row = false) rows.

Lemma mark_synced_same row : synced_to_sheets row = true → mark_synced row = row.
Proof. destruct row; simpl; intros ->; reflexivity. Qed.

Lemma mark_synced_id row : transaction_id (mark_synced row) = transaction_id row.
Proof. reflexivity. Qed.

Lemma flush_Ok rows new rows' : flush rows new = Ok rows' → rows' = rows ++ new.
Proof.
  revert rows. induction new as [|row new IH]; intros rows; simpl.
  - intros [= <-]. by rewrite app_nil_r.
  - destruct (collides row rows); [discriminate|].
    intros ->%IH. by rewrite <- app_assoc.
Qed.

Lemma flush_Raise rows new e : flush rows new = Raise e → e = IntegrityError.
Proof.
  revert rows. induction new as [|row new IH]; intros rows; simpl; [discriminate|].
  destruct (collides row rows); [congruence | apply IH].
Qed.

(** A flush succeeds exactly when no new row repeats an identifier that
    is in the table or earlier in the batch. *)
Lemma flush_no_collision rows new :
  (∀ i row, new !! i = Some row → collides row (rows ++ take i new) = false) →
  flush rows new = Ok (rows ++ new).
Proof.
  revert rows. induction new as [|row new IH]; intros rows H; simpl.
  - by rewrite app_nil_r.
  - specialize (H 0%nat row eq_refl) as H0. simpl in H0. rewrite app_nil_r in H0.
    rewrite H0, IH; [by rewrite <- app_assoc|].
    intros i row' Hi. specialize (H (S i) row' Hi). simpl in H.
    by rewrite <- app_assoc.
Qed.

Lemma commit_clean rows :
  commit {| table := rows; pending := [] |} = (Ok (), {| table := rows; pending := [] |}).
Proof. reflexivity. Qed.

Lemma commit_table_Raise db e db' :
  commit db = (Raise e, db') → table db' = table db ∧ e = IntegrityError.
Proof.
  unfold commit. destruct (flush _ _) eqn:Hf; intros [= <- <-]; simpl.
  split; [reflexivity | eapply flush_Raise, Hf].
Qed.

Lemma commit_table_Ok db u db' :
  commit db = (Ok u, db') → table db' = table db ++ pending db ∧ pending db' = [].
Proof.
  unfold commit. destruct (flush _ _) eqn:Hf; intros [= <- <-]; simpl.
  split; [eapply flush_Ok, Hf | reflexivity].
Qed.

(** Marking the objects of the unsynced query marks every row. *)
Lemma set_synced_from pre rows :
  foldl (λ rows i, alter mark_synced i rows) (pre ++ rows)
        (unsynced_from (length pre) rows)
  = pre ++ (mark_synced <$> rows).
Proof.
  revert pre. induction rows as [|row rows IH]; intros pre; [reflexivity|].
  cbn [unsynced_from fmap list_fmap].
  destruct (synced_to_sheets row) eqn:Hs.
  - rewrite (mark_synced_same row Hs).
    replace (pre ++ row :: rows) with ((pre ++ [row]) ++ rows) by by rewrite <- app_assoc.
    replace (S (length pre)) with (length (pre ++ [row])) by (rewrite length_app; simpl; lia).
    rewrite IH. by rewrite <- app_assoc.
  - cbn [foldl].
    replace (length pre) with (length pre + 0)%nat at 1 by lia.
    rewrite alter_app_r. cbn.
    replace (pre ++ mark_synced row :: rows)
      with ((pre ++ [mark_synced row]) ++ rows) by by rewrite <- app_assoc.
    replace (S (length pre)) with (length (pre ++ [mark_synced row]))
      by (rewrite length_app; simpl; lia).
    rewrite IH. by rewrite <- app_assoc.
Qed.

Lemma set_synced_all db :
  set_synced (query_unsynced db) db
  = {| table := mark_synced <$> table db; pending := pending db |}.
Proof.
  unfold set_synced, query_unsynced. f_equal.
  apply (set_synced_from [] (table db)).
Qed.

(** Reading the objects of the unsynced query gives the unsynced rows. *)
Lemma read_unsynced_from {B} (f : Transaction → B) pre rows :
  omap (λ i, f <$> (pre ++ rows) !! i) (unsynced_from (length pre) rows)
  = f <$> unsynced_rows rows.
Proof.
  revert pre. induction rows as [|row rows IH]; intros pre; [reflexivity|].
  cbn [unsynced_from]. unfold unsynced_rows. rewrite filter_cons.
  assert (Hnext : ∀ l : list nat,
    omap (λ i, f <$> (pre ++ row :: rows) !! i) l
    = omap (λ i, f <$> ((pre ++ [row]) ++ rows) !! i) l).
  { intros l. by rewrite <- app_assoc. }
  replace (S (length pre)) with (length (pre ++ [row]))
    by (rewrite length_app; simpl; lia).
  destruct (synced_to_sheets row) eqn:Hs.
  - rewrite decide_False by discriminate. rewrite Hnext. apply IH.
  - rewrite decide_True by reflexivity. cbn [omap list_omap].
    rewrite list_lookup_middle by reflexivity. cbn.
    f_equal. rewrite Hnext. apply IH.
Qed.

Lemma read_unsynced {B} (f : Transaction → B) db :
  omap (λ i, f <$> table db !! i) (query_unsynced db) = f <$> unsynced_rows (table db).
Proof. apply (read_unsynced_from f [] (table db)). Qed.

Lemma length_unsynced_from i rows :
  length (unsynced_from i rows) = length (unsynced_rows rows).
Proof.
  revert i. induction rows as [|row rows IH]; intros i; [reflexivity|].
  cbn [unsynced_from]. unfold unsynced_rows. rewrite filter_cons.
  destruct (synced_to_sheets row) eqn:Hs.
  - rewrite decide_False by discriminate. apply IH.
  - rewrite decide_True by reflexivity. simpl. f_equal. apply IH.
Qed.

Lemma length_query_unsynced db :
  length (query_unsynced db) = length (unsynced_rows (table db)).
Proof. apply length_unsynced_from. Qed.

Lemma unsynced_rows_marked rows : unsynced_rows (mark_synced <$> rows) = [].
Proof.
  induction rows as [|row rows IH]; [reflexivity|].
  unfold unsynced_rows in *. cbn [fmap list_fmap]. rewrite filter_cons.
  rewrite decide_False by discriminate. exact IH.
Qed.

End DatabaseFacts.

(** ** The steps of the pipeline *)

Module PipelineFacts.
Import GeminiClient GeminiFacts DatabaseFacts SpendSmart.

(** What every dict of the feed has: [get_transactions] builds the dicts
    with all their keys, and the identifier is a string. *)
Definition feed_dict (tx : pydict) : Prop :=
  (∃ id, tx !! "transaction_id" = Some (VStr id))
  ∧ is_Some (tx !! "account_id") ∧ is_Some (tx !! "amount")
  ∧ is_Some (tx !! "date") ∧ is_Some (tx !! "name").

(** [tx['transaction_id']] where it exists *)
Definition tx_id (tx : pydict) : pyval := dict_get tx "transaction_id" VNone.

Lemma mapM_Ok {A B} (f : A → res B) (l : list A) (k : list B) :
  mapM f l = Ok k → Forall2 (λ x y, f x = Ok y) l k.
Proof.
  revert k. induction l as [|x l IH]; intros k; simpl.
  - intros [= <-]. constructor.
  - intros H. bind_inv H. bind_inv H. injection H as <-.
    constructor; [assumption | by apply IH].
Qed.

Section with_env.
Variable E : Env.

Lemma transaction_dict_feed t tx :
  PlaidClient.transaction_dict E t = Ok tx → feed_dict tx.
Proof.
  unfold PlaidClient.transaction_dict.
  destruct (strptime_ymd E _); [|discriminate]. intros [= <-].
  repeat split; eexists; reflexivity.
Qed.

Lemma feed_dicts token response txs :
  PlaidClient.get_all_transactions_since E token response = Ok txs →
  Forall feed_dict txs.
Proof.
  unfold PlaidClient.get_all_transactions_since, PlaidClient.get_transactions.
  case_bool_decide; [discriminate|].
  destruct response as [ts|]; [|discriminate].
  intros Hm%mapM_Ok. induction Hm as [|t tx ts txs Ht _ IH]; constructor.
  - eapply transaction_dict_feed, Ht.
  - exact IH.
Qed.

(** Step 2 keeps the fetched transactions whose identifier the table
    does not have. *)
Lemma new_only_feed ids txs :
  Forall feed_dict txs →
  new_only ids txs = Ok (filter (λ tx, tx_id tx ∉ ids) txs).
Proof.
  induction 1 as [|tx txs ((id & Hid) & _) _ IH]; [reflexivity|].
  cbn [new_only]. unfold dict_item. rewrite Hid. cbn.
  rewrite IH. cbn. f_equal.
  replace (tx_id tx) with (VStr id) by (unfold tx_id, dict_get; by rewrite Hid).
  case_bool_decide; [rewrite decide_False by tauto | rewrite decide_True by tauto];
    reflexivity.
Qed.

(** the result of [categorize_transaction], which always returns *)
Definition categorization (model : Classifier) (tx : pydict) : pydict :=
  match categorize_transaction E model tx with
  | Ok r => r
  | Raise _ => fallback
  end.

Lemma categorize_transaction_total model tx :
  categorize_transaction E model tx = Ok (categorization model tx).
Proof.
  unfold categorization.
  destruct (categorize_transaction_cases E model tx)
    as [(result & r & _ & _ & ->)|[_ ->]]; reflexivity.
Qed.

Lemma categorization_well_formed model tx : well_formed (categorization model tx).
Proof.
  eapply categorize_transaction_well_formed, categorize_transaction_total.
Qed.

Lemma categorize_batch_from_total models i txs :
  categorize_batch_from E models i txs
  = Ok (imap (λ j tx, dict_merge tx (categorization (models (i + j)%nat) tx)) txs).
Proof.
  revert i. induction txs as [|tx txs IH]; intros i; [reflexivity|].
  cbn [categorize_batch_from]. rewrite categorize_transaction_total. cbn.
  rewrite IH. cbn. rewrite Nat.add_0_r. do 2 f_equal.
  apply imap_ext. intros j x _. simpl. by rewrite Nat.add_succ_r.
Qed.

(** Step 3 returns one merged dict per new transaction. *)
Lemma categorize_batch_total models txs :
  categorize_batch E models txs
  = Ok (imap (λ j tx, dict_merge tx (categorization (models j) tx)) txs).
Proof. apply categorize_batch_from_total. Qed.

(** the merged dict: the three keys of the categorization, and every
    other key as the transaction has it *)
Lemma merged_lookup tx r k :
  well_formed r →
  dict_merge tx r !! k
  = if bool_decide (k ∈ ["primary_category"; "subcategory"; "confidence"])
    then r !! k else tx !! k.
Proof.
  intros (c & sub & conf & -> & _). unfold dict_merge.
  rewrite lookup_union.
  case_bool_decide as Hk.
  - apply list_elem_of_In in Hk. simpl in Hk.
    destruct Hk as [<-|[<-|[<-|[]]]]; cbn; by destruct (tx !! _).
  - rewrite !lookup_insert_ne, lookup_singleton_ne; [by destruct (tx !! k)|..];
      intros <-; apply Hk, list_elem_of_In; simpl; tauto.
Qed.

(** *** Step 4 *)

(** the rows whose construction does not raise *)
Definition made_rows (txs : list pydict) : list Database.Transaction :=
  omap (λ tx, match make_row E tx with
              | Ok row => Some row
              | Raise _ => None
              end) txs.

Lemma store_rows_spec txs db n :
  store_rows E txs db n
  = ({| Database.table := Database.table db;
        Database.pending := Database.pending db ++ made_rows txs |},
     (n + length (made_rows txs))%nat).
Proof.
  revert db n. induction txs as [|tx txs IH]; intros db n.
  - cbn. rewrite app_nil_r, Nat.add_0_r. by destruct db.
  - cbn [store_rows made_rows omap list_omap].
    destruct (make_row E tx) as [row|e]; rewrite IH; cbn; [|reflexivity].
    rewrite <- app_assoc. f_equal. unfold made_rows. lia.
Qed.

Lemma persist_spec cats rows :
  persist E cats (Database.open_session rows)
  = match Database.flush rows (made_rows cats) with
    | Ok rows' =>
        (Ok (length (made_rows cats)),
         {| Database.table := rows ++ made_rows cats; Database.pending := [] |})
    | Raise e =>
        (Raise IntegrityError, {| Database.table := rows; Database.pending := [] |})
    end.
Proof.
  unfold persist. rewrite store_rows_spec. cbn.
  unfold Database.commit. cbn.
  destruct (Database.flush rows (made_rows cats)) as [rows'|e] eqn:Hf.
  - apply flush_Ok in Hf as ->. reflexivity.
  - apply flush_Raise in Hf as ->. reflexivity.
Qed.

Lemma make_row_fields tx row :
  make_row E tx = Ok row →
  tx !! "transaction_id" = Some (Database.transaction_id row)
  ∧ Database.primary_category row = dict_get tx "primary_category" (VStr "Other")
  ∧ Database.category_confidence row = dict_get tx "confidence" (VFloat 0)
  ∧ Database.synced_to_sheets row = false.
Proof.
  unfold make_row, dict_item. intros H.
  destruct (tx !! "transaction_id"); [|discriminate].
  destruct (tx !! "account_id"); [|discriminate].
  destruct (tx !! "amount"); [|discriminate].
  destruct (tx !! "date"); [|discriminate].
  destruct (tx !! "name"); [|discriminate].
  cbn in H. injection H as <-. cbn. auto.
Qed.

Lemma make_row_feed tx r :
  feed_dict tx → well_formed r → ∃ row, make_row E (dict_merge tx r) = Ok row.
Proof.
  intros ((id & Hid) & [a Ha] & [b Hb] & [c Hc] & [d Hd]) Hr.
  unfold make_row, dict_item.
  rewrite !(merged_lookup _ _ _ Hr). cbn.
  rewrite Hid, Ha, Hb, Hc, Hd. cbn. eauto.
Qed.

(** a row stored by the pipeline has a category of the list *)
Definition closed_row (row : Database.Transaction) : Prop :=
  ∃ c, Database.primary_category row = VStr c ∧ c ∈ CATEGORIES.

Lemma made_rows_merged (g : nat → pydict → pydict) txs :
  (∀ j tx, well_formed (g j tx)) →
  Forall closed_row (made_rows (imap (λ j tx, dict_merge tx (g j tx)) txs))
  ∧ Forall (λ row, Database.synced_to_sheets row = false)
      (made_rows (imap (λ j tx, dict_merge tx (g j tx)) txs))
  ∧ (Forall feed_dict txs →
     Database.transaction_id
       <$> made_rows (imap (λ j tx, dict_merge tx (g j tx)) txs)
     = tx_id <$> txs).
Proof.
  revert g. induction txs as [|tx txs IH]; intros g Hg.
  - repeat split; intros; constructor.
  - rewrite imap_cons. cbn [made_rows omap list_omap].
    destruct (IH (g ∘ S)) as (IH1 & IH2 & IH3); [intros; apply Hg|].
    destruct (make_row E (dict_merge tx (g 0%nat tx))) as [row|e] eqn:Hrow.
    + destruct (make_row_fields _ _ Hrow) as (Hid & Hp & _ & Hs).
      repeat split.
      * constructor; [|exact IH1].
        destruct (Hg 0%nat tx) as (c & sub & conf & Hr & Hc).
        exists c. split; [|exact Hc].
        rewrite Hp. unfold dict_get.
        rewrite (merged_lookup _ _ _ (Hg 0%nat tx)), Hr. reflexivity.
      * constructor; assumption.
      * intros [Htx Htxs]%Forall_cons. cbn. f_equal; [|by apply IH3].
        rewrite (merged_lookup _ _ _ (Hg 0%nat tx)) in Hid.
        vm_compute (bool_decide _) in Hid.
        unfold tx_id, dict_get. by rewrite Hid.
    + repeat split; try assumption.
      intros [Htx Htxs]%Forall_cons.
      destruct (make_row_feed tx (g 0%nat tx) Htx (Hg 0%nat tx)) as [row Hrow'].
      congruence.
Qed.

(** *** Step 3, the mean *)

Definition confidence_of (r : pydict) : Q :=
  match r !! "confidence" with
  | Some (VFloat q) => q
  | _ => 0%Q
  end.

Lemma sum_confidence_merged (g : nat → pydict → pydict) txs :
  (∀ j tx, well_formed (g j tx)) →
  sum_confidence (imap (λ j tx, dict_merge tx (g j tx)) txs)
  = Ok (foldr Qplus 0%Q (imap (λ j tx, confidence_of (g j tx)) txs)).
Proof.
  revert g. induction txs as [|tx txs IH]; intros g Hg; [reflexivity|].
  rewrite !imap_cons. cbn [sum_confidence foldr].
  pose proof (IH (g ∘ S) (λ j tx, Hg (S j) tx)) as IH'.
  unfold compose in *. cbn beta in *. rewrite IH'.
  unfold dict_get, confidence_of.
  rewrite (merged_lookup _ _ _ (Hg 0%nat tx)). cbn.
  destruct (Hg 0%nat tx) as (c & sub & conf & -> & _). reflexivity.
Qed.

(** *** Step 5 *)

(** what the sync step does to the table and the sheet, and its count *)
Definition after_sync (o : Outside) (rows : list Database.Transaction)
    (sh : SheetsClient.Sheet)
  : nat * list Database.Transaction * SheetsClient.Sheet :=
  match unsynced_rows rows with
  | [] => (0%nat, rows, sh)
  | pushed =>
      let '(returned, sh') :=
        SheetsClient.sync_transactions E (spreadsheet_id o) (fault o)
          (sheets_dict <$> pushed) sh in
      match returned with
      | Ok _ => (length pushed, Database.mark_synced <$> rows, sh')
      | Raise _ => (0%nat, rows, sh')
      end
  end.

Lemma sync_spec o s cats rows sh :
  sync E o s cats {| Database.table := rows; Database.pending := [] |} sh
  = if s && negb (bool_decide (cats = []))
    then let '(n, rows', sh') := after_sync o rows sh in
         (n, {| Database.table := rows'; Database.pending := [] |}, sh')
    else (0%nat, {| Database.table := rows; Database.pending := [] |}, sh).
Proof.
  unfold sync. destruct (s && _); [|reflexivity].
  unfold sync_step, after_sync.
  set (db := {| Database.table := rows; Database.pending := [] |}).
  pose proof (length_query_unsynced db) as Hlen.
  rewrite (read_unsynced sheets_dict db).
  change (Database.table db) with rows in *.
  destruct (Database.query_unsynced db) as [|i rest] eqn:Hq;
    destruct (unsynced_rows rows) as [|row pushed] eqn:Hu; try discriminate;
    [reflexivity|].
  destruct (SheetsClient.sync_transactions _ _ _ _ _) as [[u|e] sh']; [|reflexivity].
  rewrite <- Hq, set_synced_all. rewrite Hq, Hlen. reflexivity.
Qed.

(** *** The whole run *)

Definition ids_of (w : World) : list pyval := Database.transaction_id <$> rows w.

(** the fetched transactions that Step 2 keeps *)
Definition new_of (w : World) (txs : list pydict) : list pydict :=
  filter (λ tx, tx_id tx ∉ ids_of w) txs.

(** what Step 3 makes of them *)
Definition categorized_of (o : Outside) (new : list pydict) : list pydict :=
  imap (λ j tx, dict_merge tx (categorization (models o j) tx)) new.

(** the confidence of each categorization, fallback included *)
Definition confidences_of (o : Outside) (new : list pydict) : list Q :=
  imap (λ j tx, confidence_of (categorization (models o j) tx)) new.

Definition mean (qs : list Q) : Q :=
  (foldr Qplus 0 qs / inject_Z (Z.of_nat (length qs)))%Q.

Definition fetched (o : Outside) : res (list pydict) :=
  PlaidClient.get_all_transactions_since E (access_token o) (response o).

Lemma run_feed_error o s w e :
  fetched o = Raise e → fetch_and_process_transactions E o s w = (Raise e, w).
Proof. unfold fetched, fetch_and_process_transactions. by intros ->. Qed.

Lemma run_short o s w txs :
  fetched o = Ok txs → new_of w txs = [] →
  fetch_and_process_transactions E o s w = (Ok (short_stats (length txs)), w).
Proof.
  unfold fetched, fetch_and_process_transactions. intros Hf Hnew.
  rewrite Hf. destruct txs as [|tx txs]; [reflexivity|].
  rewrite new_only_feed by (eapply feed_dicts, Hf).
  unfold new_of, ids_of in Hnew. cbn [Database.open_session Database.table].
  rewrite Hnew. by destruct w.
Qed.

Lemma run_full o s w txs :
  fetched o = Ok txs → new_of w txs ≠ [] →
  fetch_and_process_transactions E o s w
  = let new := new_of w txs in
    let cats := categorized_of o new in
    let stored := made_rows cats in
    match Database.flush (rows w) stored with
    | Raise _ => (Raise IntegrityError, w)
    | Ok _ =>
        let '(n, rows', sh') :=
          if s then after_sync o (rows w ++ stored) (sheet w)
          else (0%nat, rows w ++ stored, sheet w) in
        (Ok (full_stats txs new cats (VFloat (mean (confidences_of o new))) n),
         {| rows := rows'; sheet := sh' |})
    end.
Proof.
  unfold fetched, fetch_and_process_transactions. intros Hf Hnew.
  rewrite Hf. destruct txs as [|tx0 txs0]; [done|].
  set (txs := tx0 :: txs0) in *.
  rewrite new_only_feed by (eapply feed_dicts, Hf).
  cbn [Database.open_session Database.table].
  fold (ids_of w). fold (new_of w txs). cbn zeta.
  destruct (new_of w txs) as [|tx new] eqn:Hn; [done|].
  rewrite categorize_batch_total. fold (categorized_of o (tx :: new)).
  assert (average_confidence (categorized_of o (tx :: new))
          = Ok (VFloat (mean (confidences_of o (tx :: new))))) as ->.
  { unfold average_confidence, categorized_of.
    rewrite sum_confidence_merged by (intros; apply categorization_well_formed).
    rewrite imap_cons. cbn [mbind res_bind]. unfold mean, confidences_of.
    cbn [length]. by rewrite !length_imap. }
  rewrite persist_spec.
  destruct (Database.flush _ _) as [rows'|e]; [|by destruct w].
  rewrite sync_spec.
  replace (negb (bool_decide (categorized_of o (tx :: new) = []))) with true
    by (unfold categorized_of; by rewrite imap_cons).
  rewrite andb_true_r. destruct s; [|reflexivity].
  by destruct (after_sync _ _ _) as [[n rows''] sh'].
Qed.

(** *** The sheets client *)

Lemma sync_transactions_skips id fault data sh :
  SheetsClient.no_spreadsheet id = true →
  SheetsClient.sync_transactions E id fault data sh = (Ok (), sh).
Proof. unfold SheetsClient.sync_transactions. by intros ->. Qed.

Lemma sync_transactions_pushes id data sh :
  SheetsClient.no_spreadsheet id = false →
  SheetsClient.sync_transactions E id SheetsClient.NoFault data sh
  = (Ok (), Some (SheetsClient.headers :: (SheetsClient.sheet_row E <$> data))).
Proof.
  unfold SheetsClient.sync_transactions. intros ->. by destruct sh.
Qed.

(** a request that fails makes [sync_transactions] raise *)
Lemma sync_transactions_fails id fault data sh :
  SheetsClient.no_spreadsheet id = false →
  fault = SheetsClient.GetFails ∨ fault = SheetsClient.ClearFails
  ∨ fault = SheetsClient.UpdateFails →
  ∃ sh', SheetsClient.sync_transactions E id fault data sh = (Raise HttpError, sh').
Proof.
  unfold SheetsClient.sync_transactions. intros -> [->|[->| ->]]; cbn; eauto.
  all: destruct sh; cbn; eauto.
Qed.

(** *** What a run does to the table *)

Lemma after_sync_rows o rows sh :
  (after_sync o rows sh).1.2 = rows
  ∨ (after_sync o rows sh).1.2 = Database.mark_synced <$> rows.
Proof.
  unfold after_sync. destruct (unsynced_rows rows); [by left|].
  destruct (SheetsClient.sync_transactions _ _ _ _ _) as [[u|e] sh']; cbn; auto.
Qed.

Lemma ids_marked (rows : list Database.Transaction) :
  Database.transaction_id <$> (Database.mark_synced <$> rows)
  = Database.transaction_id <$> rows.
Proof. rewrite <- list_fmap_compose. reflexivity. Qed.

Lemma unsynced_rows_app rows stored :
  Forall (λ row, Database.synced_to_sheets row = false) stored →
  unsynced_rows (rows ++ stored) = unsynced_rows rows ++ stored.
Proof.
  intros H. unfold unsynced_rows. rewrite filter_app. f_equal.
  induction H as [|row stored Hrow _ IH]; [reflexivity|].
  rewrite filter_cons, decide_True by assumption. by rewrite IH.
Qed.

Lemma flush_collision rows new i row :
  new !! i = Some row →
  Database.collides row (rows ++ take i new) = true →
  Database.flush rows new = Raise IntegrityError.
Proof.
  revert rows i. induction new as [|r new IH]; intros rows i Hi Hc; [done|].
  cbn [Database.flush]. destruct i as [|i].
  - injection Hi as ->. cbn in Hc. rewrite app_nil_r in Hc. by rewrite Hc.
  - destruct (Database.collides r rows); [reflexivity|].
    apply (IH _ i Hi). cbn in Hc. by rewrite <- app_assoc.
Qed.

(** Whatever happens, a run leaves the table as it was, or appends the
    rows it made, and then possibly marks every row synced. *)
Lemma run_rows o s w :
  ∃ stored,
    Forall closed_row stored
    ∧ Forall (λ row, Database.synced_to_sheets row = false) stored
    ∧ let rows' := rows (fetch_and_process_transactions E o s w).2 in
      rows' = rows w
      ∨ rows' = rows w ++ stored
      ∨ rows' = Database.mark_synced <$> (rows w ++ stored).
Proof.
  destruct (fetched o) as [txs|e] eqn:Hf.
  2:{ exists []. rewrite (run_feed_error _ _ _ _ Hf). repeat split; auto. }
  destruct (decide (new_of w txs = [])) as [Hn|Hn].
  { exists []. rewrite (run_short _ _ _ _ Hf Hn). repeat split; auto. }
  rewrite (run_full _ _ _ _ Hf Hn). cbn zeta.
  set (stored := made_rows (categorized_of o (new_of w txs))).
  destruct (made_rows_merged (λ j tx, categorization (models o j) tx) (new_of w txs))
    as (Hclosed & Hunsynced & _); [intros; apply categorization_well_formed|].
  exists stored. split; [exact Hclosed|]. split; [exact Hunsynced|].
  destruct (Database.flush _ _); [|by left].
  destruct s; [|right; by left].
  pose proof (after_sync_rows o (rows w ++ stored) (sheet w)) as Hr.
  destruct (after_sync _ _ _) as [[n rows''] sh']. cbn in *.
  destruct Hr as [-> | ->]; auto.
Qed.

Lemma closed_row_marked row : closed_row row → closed_row (Database.mark_synced row).
Proof. intros (c & Hc & Hin). by exists c. Qed.

End with_env.

End PipelineFacts.

(** * The categorization service *)

Section categorization.
Import GeminiClient GeminiFacts PipelineFacts.
Variable E : Env.

(** C1: [categorize_transaction] never raises to its caller.  Every
    call returns a well-formed result; when the body raises for any
    reason, in particular when the classifier call errors or when its
    answer does not parse to a structured record, the result is
    exactly the fallback
    [{primary_category: "Other", subcategory: "Uncategorized", confidence: 0.0}]. *)
Theorem categorize_transaction_never_raises (model : Classifier) (tx : pydict) :
  (∃ r, categorize_transaction E model tx = Ok r ∧ well_formed r)
  ∧ (∀ e, categorize_body E model tx = Raise e →
       categorize_transaction E model tx = Ok fallback)
  ∧ (∀ desc, transaction_desc E tx = Ok desc →
       model (prompt_template +:+ desc) = None →
       categorize_transaction E model tx = Ok fallback)
  ∧ (∀ desc text payload,
       transaction_desc E tx = Ok desc →
       model (prompt_template +:+ desc) = Some text →
       extract_json (strip text) = Ok payload →
       (∀ items, parse_json E payload ≠ Ok (VDict items)) →
       categorize_transaction E model tx = Ok fallback).
Proof.
  assert (Hraise : ∀ e, categorize_body E model tx = Raise e →
                        categorize_transaction E model tx = Ok fallback).
  { intros e He. unfold categorize_transaction. by rewrite He. }
  split; [|split; [exact Hraise|split]].
  - exists (categorization E model tx). split.
    + apply categorize_transaction_total.
    + apply categorization_well_formed.
  - intros desc Hd Hm. apply (Hraise ValueError).
    unfold categorize_body, classify. rewrite Hd. cbn [mbind res_bind].
    by rewrite Hm.
  - intros desc text payload Hd Hm Hx Hp.
    unfold categorize_transaction, categorize_body, classify.
    rewrite Hd. cbn [mbind res_bind]. rewrite Hm. cbn [mbind res_bind].
    rewrite Hx. cbn [mbind res_bind try_except].
    destruct (parse_json E payload) as [result|e]; [|reflexivity].
    destruct result; try reflexivity. by destruct (Hp items).
Qed.

(** C3: the primary category of every categorization result is one of
    the 13 categories.  A raw category outside the list is replaced by
    the first category, in list order, that contains it or is contained
    in it after lower-casing both, and by "Other" when there is none;
    every row a run stores therefore has a category of the list. *)
Theorem primary_category_in_enumeration :
  length CATEGORIES = 13%nat
  ∧ (∀ model tx r, categorize_transaction E model tx = Ok r →
       ∃ c, r !! "primary_category" = Some (VStr c) ∧ c ∈ CATEGORIES)
  ∧ (∀ result r raw,
       normalize E result = Ok r →
       py_get result "primary_category" (VStr "Other") = Ok (VStr raw) →
       raw ∉ CATEGORIES →
       (∀ pre c post,
          CATEGORIES = pre ++ c :: post →
          Forall (λ c', ¬ ((∃ l r, lower c' = l +:+ lower raw +:+ r)
                           ∨ (∃ l r, lower raw = l +:+ lower c' +:+ r))) pre →
          (∃ l r, lower c = l +:+ lower raw +:+ r)
          ∨ (∃ l r, lower raw = l +:+ lower c +:+ r) →
          r !! "primary_category" = Some (VStr c))
       ∧ (Forall (λ c', ¬ ((∃ l r, lower c' = l +:+ lower raw +:+ r)
                           ∨ (∃ l r, lower raw = l +:+ lower c' +:+ r)))
            CATEGORIES →
          r !! "primary_category" = Some (VStr "Other")))
  ∧ (∀ o s w,
       Forall closed_row (SpendSmart.rows w) →
       Forall closed_row
         (SpendSmart.rows (SpendSmart.fetch_and_process_transactions E o s w).2)).
Proof.
  split; [reflexivity|]. split; [|split].
  - intros model tx r (c & sub & conf & -> & Hc)%categorize_transaction_well_formed.
    by exists c.
  - intros result r raw (items & raw' & conf & -> & Hraw & _ & ->)%normalize_Ok Hget Hnot.
    cbn in Hget. rewrite Hraw in Hget. injection Hget as ->.
    rewrite bool_decide_eq_false_2 by assumption.
    rewrite lookup_insert_eq. unfold closest_or_other. split.
    + intros pre c post -> Hpre Hc.
      rewrite (find_first (close_to (lower raw)) pre c post); [reflexivity| |].
      * eapply Forall_impl; [exact Hpre|]. intros c' Hc'. cbn beta in Hc'.
        rewrite <- close_to_spec in Hc'. by destruct (close_to _ _).
      * by apply close_to_spec.
    + intros Hnone. rewrite (find_none_all (close_to (lower raw))); [reflexivity|].
      eapply Forall_impl; [exact Hnone|]. intros c' Hc'. cbn beta in Hc'.
      rewrite <- close_to_spec in Hc'. by destruct (close_to _ _).
  - intros o s w Hw.
    destruct (run_rows E o s w) as (stored & Hclosed & _ & Hrows).
    cbn zeta in Hrows. destruct Hrows as [-> | [-> | ->]].
    + exact Hw.
    + by apply Forall_app.
    + apply Forall_fmap. eapply Forall_impl; [apply Forall_app; eauto|].
      intros row. apply closed_row_marked.
Qed.

(** C5 (amended): the confidence of a categorization result is a float:
    0.0 on the fallback path and otherwise [float] of the classifier's
    [confidence] entry (0.5 when the entry is absent), taken as it is.
    It lies between 0.0 and 1.0 whenever the classifier's entry does. *)
Theorem confidence_as_classified (model : Classifier) (tx : pydict) (r : pydict) :
  categorize_transaction E model tx = Ok r →
  ∃ q, r !! "confidence" = Some (VFloat q)
    ∧ ((r = fallback ∧ q = 0%Q ∧ ∃ e, categorize_body E model tx = Raise e)
       ∨ (∃ items, classify E model tx = Ok (VDict items)
            ∧ py_float E (dict_get (list_to_map items) "confidence" (VFloat 0.5))
              = Ok q))
    ∧ ((∀ items v q',
          classify E model tx = Ok (VDict items) →
          (list_to_map items : pydict) !! "confidence" = Some v →
          py_float E v = Ok q' → (0 <= q' ∧ q' <= 1)%Q) →
       (0 <= q ∧ q <= 1)%Q).
Proof.
  intros Hr.
  destruct (categorize_transaction_cases E model tx)
    as [(result & r' & Hc & Hn & Hr')|[He Hr']];
    rewrite Hr' in Hr; injection Hr as <-.
  - apply normalize_Ok in Hn as (items & raw & conf & -> & _ & Hconf & ->).
    exists conf. split; [reflexivity|]. split; [right; eauto|].
    intros Hrange. unfold dict_get in Hconf.
    destruct ((list_to_map items : pydict) !! "confidence") as [v|] eqn:Hv.
    + eapply Hrange; eauto.
    + cbn in Hconf. injection Hconf as <-. split; discriminate.
  - exists 0%Q. split; [reflexivity|]. split; [left; auto|].
    intros _. split; discriminate.
Qed.

(** C10: [categorize_batch] returns one dict per transaction, in the
    order of the input; the [i]-th dict has every key of the [i]-th
    transaction as well as [primary_category], [subcategory] and
    [confidence], whose values are those of the categorization, also
    where the transaction had such a key. *)
Theorem categorize_batch_merges (models : nat → Classifier) (txs : list pydict) :
  ∃ results,
    categorize_batch E models txs = Ok results
    ∧ length results = length txs
    ∧ ∀ i tx, txs !! i = Some tx →
        ∃ c out,
          categorize_transaction E (models i) tx = Ok c
          ∧ results !! i = Some out
          ∧ out = dict_merge tx c
          ∧ dom out = dom tx ∪ {[ "primary_category"; "subcategory"; "confidence" ]}
          ∧ (∀ k, k ∈ ["primary_category"; "subcategory"; "confidence"] →
               is_Some (c !! k) ∧ out !! k = c !! k)
          ∧ (∀ k, k ∉ ["primary_category"; "subcategory"; "confidence"] →
               out !! k = tx !! k).
Proof.
  eexists. split; [apply categorize_batch_total|].
  split; [apply length_imap|].
  intros i tx Hi.
  pose proof (categorization_well_formed E (models i) tx) as Hwf.
  exists (categorization E (models i) tx), (dict_merge tx (categorization E (models i) tx)).
  split; [apply categorize_transaction_total|].
  split; [by rewrite list_lookup_imap, Hi|].
  split; [reflexivity|].
  split; [|split].
  - destruct Hwf as (c & sub & conf & -> & _). unfold dict_merge.
    rewrite dom_union_L, !dom_insert_L, dom_singleton_L. set_solver.
  - intros k Hk. rewrite (merged_lookup _ _ _ Hwf), bool_decide_eq_true_2 by assumption.
    split; [|reflexivity].
    destruct Hwf as (c & sub & conf & -> & _).
    apply list_elem_of_In in Hk. cbn in Hk.
    destruct Hk as [<-|[<-|[<-|[]]]]; eexists; reflexivity.
  - intros k Hk. by rewrite (merged_lookup _ _ _ Hwf), bool_decide_eq_false_2.
Qed.

End categorization.

(** * The ingestion pipeline *)

Section pipeline.
Import GeminiClient GeminiFacts DatabaseFacts PipelineFacts SpendSmart.
Variable E : Env.

(** C2: with an unchanged feed response, a run that follows a completed
    run finds no new transaction, reports [new_transactions = 0] and
    leaves the table as it is; Step 2 keeps exactly the fetched
    transactions whose identifier is not in the table. *)
Theorem second_run_finds_nothing_new (o1 o2 : Outside) (s1 s2 : bool)
    (w w1 : World) (stats1 : pydict) :
  fetched E o2 = fetched E o1 →
  fetch_and_process_transactions E o1 s1 w = (Ok stats1, w1) →
  (∃ stats2,
     fetch_and_process_transactions E o2 s2 w1 = (Ok stats2, w1)
     ∧ stats2 !! "new_transactions" = Some (VInt 0)
     ∧ stats2 !! "categorized" = Some (VInt 0))
  ∧ (∀ txs, fetched E o1 = Ok txs →
       ∃ new, new_only (Database.transaction_id <$> rows w) txs = Ok new
         ∧ ∀ tx, tx ∈ new ↔ tx ∈ txs ∧ tx_id tx ∉ Database.transaction_id <$> rows w).
Proof.
  intros Hsame Hrun. split.
  2:{ intros txs Hf. eexists. split.
      - apply new_only_feed. eapply feed_dicts, Hf.
      - intros tx. rewrite list_elem_of_filter. tauto. }
  destruct (fetched E o1) as [txs|e] eqn:Hf.
  2:{ rewrite (run_feed_error _ _ _ _ _ Hf) in Hrun. discriminate. }
  assert (Hshort : new_of w1 txs = [] →
    ∃ stats2, fetch_and_process_transactions E o2 s2 w1 = (Ok stats2, w1)
      ∧ stats2 !! "new_transactions" = Some (VInt 0)
      ∧ stats2 !! "categorized" = Some (VInt 0)).
  { intros Hn. eexists. split; [apply (run_short _ _ _ _ _ Hsame Hn)|].
    split; reflexivity. }
  destruct (decide (new_of w txs = [])) as [Hn|Hn].
  { rewrite (run_short _ _ _ _ _ Hf Hn) in Hrun. injection Hrun as _ <-.
    by apply Hshort. }
  apply Hshort.
  rewrite (run_full _ _ _ _ _ Hf Hn) in Hrun. cbn zeta in Hrun.
  set (stored := made_rows E (categorized_of E o1 (new_of w txs))) in *.
  destruct (made_rows_merged E (λ j tx, categorization E (models o1 j) tx) (new_of w txs))
    as (_ & _ & Hids); [intros; apply categorization_well_formed|].
  assert (Hfeed : Forall feed_dict txs) by (eapply feed_dicts, Hf).
  assert (Hstored : Database.transaction_id <$> stored = tx_id <$> new_of w txs).
  { apply Hids. apply Forall_forall. intros tx [_ Htx]%list_elem_of_filter.
    by eapply Forall_forall in Hfeed. }
  assert (Hids1 : ids_of w1 = ids_of w ++ (tx_id <$> new_of w txs)).
  { destruct (Database.flush _ _); [|discriminate].
    assert (rows w1 = rows w ++ stored
            ∨ rows w1 = Database.mark_synced <$> (rows w ++ stored)) as Hrows.
    { destruct s1.
      - pose proof (after_sync_rows E o1 (rows w ++ stored) (sheet w)) as Hr.
        destruct (after_sync _ _ _ _) as [[n rows''] sh'].
        injection Hrun as _ <-. exact Hr.
      - injection Hrun as _ <-. by left. }
    unfold ids_of.
    destruct Hrows as [-> | ->]; rewrite ?ids_marked, fmap_app, Hstored; reflexivity. }
  unfold new_of at 1. rewrite Hids1.
  apply filter_none. apply Forall_forall. intros tx Htx Hnot.
  rewrite elem_of_app in Hnot.
  destruct (decide (tx_id tx ∈ ids_of w)) as [Hin|Hout]; [tauto|].
  apply Hnot. right. apply list_elem_of_fmap_2.
  apply list_elem_of_filter. auto.
Qed.

(** the shape of a run that gets past Step 4 *)
Lemma run_completed o s w txs stats w' :
  fetched E o = Ok txs → new_of w txs ≠ [] →
  fetch_and_process_transactions E o s w = (Ok stats, w') →
  let new := new_of w txs in
  let cats := categorized_of E o new in
  let stored := made_rows E cats in
  ∃ n rows' sh',
    (if s then after_sync E o (rows w ++ stored) (sheet w)
     else (0%nat, rows w ++ stored, sheet w)) = (n, rows', sh')
    ∧ stats = full_stats txs new cats (VFloat (mean (confidences_of E o new))) n
    ∧ w' = {| rows := rows'; sheet := sh' |}.
Proof.
  intros Hf Hn Hrun. rewrite (run_full _ _ _ _ _ Hf Hn) in Hrun. cbn zeta in *.
  destruct (Database.flush _ _); [|discriminate].
  destruct (if s then _ else _) as [[n rows'] sh'].
  injection Hrun as <- <-. by exists n, rows', sh'.
Qed.

(** C8: [average_confidence] is the arithmetic mean of the confidences
    of all categorized transactions of the batch.  A transaction whose
    classification failed is counted in [categorized] and enters the
    mean with 0.0. *)
Theorem average_confidence_is_mean (o : Outside) (s : bool) (w w' : World)
    (txs : list pydict) (stats : pydict) :
  fetched E o = Ok txs → new_of w txs ≠ [] →
  fetch_and_process_transactions E o s w = (Ok stats, w') →
  let new := new_of w txs in
  let confidences := confidences_of E o new in
  stats !! "new_transactions" = Some (VInt (Z.of_nat (length new)))
  ∧ stats !! "categorized" = Some (VInt (Z.of_nat (length new)))
  ∧ stats !! "average_confidence" = Some (VFloat (mean confidences))
  ∧ length confidences = length new
  ∧ ∀ j tx, new !! j = Some tx →
      (∃ r q, categorize_transaction E (models o j) tx = Ok r
              ∧ r !! "confidence" = Some (VFloat q)
              ∧ confidences !! j = Some q)
      ∧ ((∃ e, categorize_body E (models o j) tx = Raise e) →
         confidences !! j = Some 0%Q).
Proof.
  intros Hf Hn Hrun.
  destruct (run_completed _ _ _ _ _ _ Hf Hn Hrun) as (n & rows' & sh' & _ & -> & _).
  cbn zeta. unfold full_stats, categorized_of, confidences_of.
  rewrite !length_imap.
  split; [reflexivity|]. split; [reflexivity|]. split; [reflexivity|].
  split; [reflexivity|].
  intros j tx Hj. rewrite list_lookup_imap, Hj. cbn.
  pose proof (categorize_transaction_total E (models o j) tx) as Hc.
  split.
  - destruct (categorization_well_formed E (models o j) tx) as (c & sub & conf & Hr & _).
    exists (categorization E (models o j) tx), conf.
    split; [exact Hc|]. unfold confidence_of. rewrite Hr. split; reflexivity.
  - intros [e He]. unfold categorize_transaction in Hc. rewrite He in Hc.
    cbn in Hc. injection Hc as <-. reflexivity.
Qed.

(** C7: when the sync step runs on a configured spreadsheet and the
    push succeeds, the snapshot written to the sheet holds every row
    that is unsynced after Step 4: the unsynced rows of earlier runs
    followed by the rows of this run.  [synced_to_sheets] is the number
    of these rows, that is the number of earlier unsynced rows plus
    [new_transactions], and all rows are then marked synced. *)
Theorem sync_pushes_all_unsynced (o : Outside) (w w' : World)
    (txs : list pydict) (stats : pydict) :
  fetched E o = Ok txs → new_of w txs ≠ [] →
  SheetsClient.no_spreadsheet (spreadsheet_id o) = false →
  fault o = SheetsClient.NoFault →
  fetch_and_process_transactions E o true w = (Ok stats, w') →
  let stored := made_rows E (categorized_of E o (new_of w txs)) in
  let pushed := unsynced_rows (rows w ++ stored) in
  pushed = unsynced_rows (rows w) ++ stored
  ∧ length stored = length (new_of w txs)
  ∧ sheet w' = Some (SheetsClient.headers
                     :: (SheetsClient.sheet_row E <$> (sheets_dict <$> pushed)))
  ∧ rows w' = Database.mark_synced <$> (rows w ++ stored)
  ∧ stats !! "new_transactions" = Some (VInt (Z.of_nat (length (new_of w txs))))
  ∧ stats !! "synced_to_sheets"
    = Some (VInt (Z.of_nat (length (unsynced_rows (rows w))
                            + length (new_of w txs)))).
Proof.
  intros Hf Hn Hid Hfault Hrun.
  destruct (run_completed _ _ _ _ _ _ Hf Hn Hrun) as (n & rows' & sh' & Hs & -> & ->).
  cbn zeta in *.
  set (stored := made_rows E (categorized_of E o (new_of w txs))) in *.
  destruct (made_rows_merged E (λ j tx, categorization E (models o j) tx) (new_of w txs))
    as (_ & Hunsynced & Hids); [intros; apply categorization_well_formed|].
  fold (categorized_of E o (new_of w txs)) in Hunsynced, Hids. fold stored in Hunsynced, Hids.
  assert (Hlen : length stored = length (new_of w txs)).
  { rewrite <- (length_fmap Database.transaction_id), Hids, length_fmap; [done|].
    apply Forall_forall. intros tx [_ Htx]%list_elem_of_filter.
    eapply Forall_forall; [eapply feed_dicts, Hf | exact Htx]. }
  pose proof (unsynced_rows_app (rows w) stored Hunsynced) as Hpushed.
  split; [exact Hpushed|]. split; [exact Hlen|].
  unfold after_sync in Hs.
  destruct (unsynced_rows (rows w ++ stored)) as [|row pushed] eqn:Hu.
  { exfalso. destruct stored; [by destruct (new_of w txs) | by destruct (unsynced_rows (rows w))]. }
  rewrite Hfault, sync_transactions_pushes in Hs by exact Hid.
  injection Hs as <- <- <-.
  split; [reflexivity|]. split; [reflexivity|]. split; [reflexivity|].
  unfold full_stats.
  rewrite !lookup_insert_ne, lookup_insert_eq by done.
  change (S (length pushed)) with (length (row :: pushed)).
  by rewrite Hpushed, length_app, Hlen.
Qed.

(** The flag [synced_to_sheets] of a stored row never goes back to
    false, whatever the run does. *)
Lemma synced_stays_synced o s w i row :
  rows w !! i = Some row → Database.synced_to_sheets row = true →
  rows (fetch_and_process_transactions E o s w).2 !! i = Some row.
Proof.
  intros Hi Hrow.
  destruct (run_rows E o s w) as (stored & _ & _ & Hrows). cbn zeta in Hrows.
  destruct Hrows as [-> | [-> | ->]].
  - exact Hi.
  - by apply lookup_app_l_Some.
  - rewrite list_lookup_fmap, (lookup_app_l_Some _ _ _ _ Hi). cbn.
    by rewrite mark_synced_same.
Qed.

(** When a request to the Sheets API fails, the run still completes, no
    row is marked and [synced_to_sheets] is 0. *)
Lemma mirror_failure_leaves_rows_unsynced o w w' txs stats :
  fetched E o = Ok txs → new_of w txs ≠ [] →
  SheetsClient.no_spreadsheet (spreadsheet_id o) = false →
  fault o = SheetsClient.GetFails ∨ fault o = SheetsClient.ClearFails
  ∨ fault o = SheetsClient.UpdateFails →
  fetch_and_process_transactions E o true w = (Ok stats, w') →
  rows w' = rows w ++ made_rows E (categorized_of E o (new_of w txs))
  ∧ stats !! "synced_to_sheets" = Some (VInt 0).
Proof.
  intros Hf Hn Hid Hfault Hrun.
  destruct (run_completed _ _ _ _ _ _ Hf Hn Hrun) as (n & rows' & sh' & Hs & -> & ->).
  cbn zeta in *. unfold after_sync in Hs.
  destruct (unsynced_rows _) as [|row pushed].
  - injection Hs as <- <- <-. split; reflexivity.
  - destruct (sync_transactions_fails E _ _ (sheets_dict <$> row :: pushed) (sheet w)
                Hid Hfault) as [sh'' Hfail].
    rewrite Hfail in Hs. injection Hs as <- <- <-. split; reflexivity.
Qed.

(** C4: evaluated where no spreadsheet is configured.  The sheets
    client returns without writing anything, and the run then marks
    every unsynced row synced and counts it in [synced_to_sheets]:
    rows are flagged although their data was never transmitted. *)
Theorem unconfigured_sheet_marks_rows_synced (o : Outside) (w w' : World)
    (txs : list pydict) (stats : pydict) :
  fetched E o = Ok txs → new_of w txs ≠ [] →
  SheetsClient.no_spreadsheet (spreadsheet_id o) = true →
  fetch_and_process_transactions E o true w = (Ok stats, w') →
  let stored := made_rows E (categorized_of E o (new_of w txs)) in
  sheet w' = sheet w
  ∧ rows w' = Database.mark_synced <$> (rows w ++ stored)
  ∧ Forall (λ row, Database.synced_to_sheets row = true) (rows w')
  ∧ stats !! "synced_to_sheets"
    = Some (VInt (Z.of_nat (length (unsynced_rows (rows w ++ stored)))))
  ∧ (0 < length (unsynced_rows (rows w ++ stored)))%nat.
Proof.
  intros Hf Hn Hid Hrun.
  destruct (run_completed _ _ _ _ _ _ Hf Hn Hrun) as (n & rows' & sh' & Hs & -> & ->).
  cbn zeta in *.
  set (stored := made_rows E (categorized_of E o (new_of w txs))) in *.
  destruct (made_rows_merged E (λ j tx, categorization E (models o j) tx) (new_of w txs))
    as (_ & Hunsynced & Hids); [intros; apply categorization_well_formed|].
  fold (categorized_of E o (new_of w txs)) in Hunsynced, Hids. fold stored in Hunsynced, Hids.
  assert (Hlen : length stored = length (new_of w txs)).
  { rewrite <- (length_fmap Database.transaction_id), Hids, length_fmap; [done|].
    apply Forall_forall. intros tx [_ Htx]%list_elem_of_filter.
    eapply Forall_forall; [eapply feed_dicts, Hf | exact Htx]. }
  assert (Hpos : (0 < length (unsynced_rows (rows w ++ stored)))%nat).
  { rewrite (unsynced_rows_app _ _ Hunsynced), length_app, Hlen.
    destruct (new_of w txs); [done | cbn; lia]. }
  unfold after_sync in Hs.
  destruct (unsynced_rows (rows w ++ stored)) as [|row pushed] eqn:Hu; [cbn in Hpos; lia|].
  rewrite sync_transactions_skips in Hs by exact Hid.
  injection Hs as <- <- <-. cbn [rows sheet].
  split; [reflexivity|]. split; [reflexivity|].
  split; [apply Forall_fmap, Forall_forall; by intros|].
  split; [reflexivity | exact Hpos].
Qed.

(** C6: evaluated where a new row repeats an identifier.  The violation
    of the unique index surfaces in [db.commit()], after the loop and
    outside its [try]: the run raises and stores none of the rows. *)
Theorem duplicate_id_aborts_run (o : Outside) (s : bool) (w : World)
    (txs : list pydict) (i : nat) (row : Database.Transaction) :
  fetched E o = Ok txs →
  made_rows E (categorized_of E o (new_of w txs)) !! i = Some row →
  Database.collides row
    (rows w ++ take i (made_rows E (categorized_of E o (new_of w txs)))) = true →
  fetch_and_process_transactions E o s w = (Raise IntegrityError, w).
Proof.
  intros Hf Hi Hc.
  assert (Hn : new_of w txs ≠ []) by (intros Hn; by rewrite Hn in Hi).
  rewrite (run_full _ _ _ _ _ Hf Hn). cbn zeta.
  by rewrite (flush_collision _ _ _ _ Hi Hc).
Qed.

(** A row whose construction raises is skipped by the loop of Step 4,
    and the other rows are added to the session. *)
Lemma construction_failure_is_skipped txs1 tx txs2 db e :
  make_row E tx = Raise e →
  store_rows E (txs1 ++ tx :: txs2) db 0
  = store_rows E (txs1 ++ txs2) db 0.
Proof.
  intros He. rewrite !store_rows_spec. unfold made_rows.
  rewrite !omap_app. cbn. by rewrite He.
Qed.

(** C9: evaluated where the feed is empty.  The run returns the four
    zero statistics, but neither [average_confidence] nor
    [categories_used]; [main] reads both and raises [KeyError]. *)
Theorem short_circuit_statistics (o : Outside) (s : bool) (w : World) :
  fetched E o = Ok [] →
  ∃ stats,
    fetch_and_process_transactions E o s w = (Ok stats, w)
    ∧ stats !! "total_fetched" = Some (VInt 0)
    ∧ stats !! "new_transactions" = Some (VInt 0)
    ∧ stats !! "categorized" = Some (VInt 0)
    ∧ stats !! "synced_to_sheets" = Some (VInt 0)
    ∧ stats !! "average_confidence" = None
    ∧ stats !! "categories_used" = None
    ∧ main E o w = (Raise (KeyError "average_confidence"), w).
Proof.
  intros Hf. exists (short_stats 0).
  assert (Hrun : ∀ s, fetch_and_process_transactions E o s w = (Ok (short_stats 0), w)).
  { intros s'. by apply (run_short _ _ _ _ _ Hf). }
  split; [apply Hrun|]. repeat (split; [reflexivity|]).
  unfold main. rewrite Hrun. reflexivity.
Qed.

(** A run that gets to Step 6 returns all six statistics. *)
Lemma full_statistics_keys txs new cats avg n :
  dom (full_stats txs new cats avg n)
  = list_to_set summary_keys.
Proof.
  unfold full_stats, summary_keys.
  rewrite !dom_insert_L, dom_singleton_L. cbn. set_solver.
Qed.

End pipeline.

(** * The theorems at concrete inputs *)

Section examples.
Import GeminiClient GeminiFacts DatabaseFacts PipelineFacts SpendSmart Demo.

(** The classifier is down, or answers with a JSON list: the fallback. *)
Lemma categorize_transaction_never_raises_witness :
  categorize_transaction env down tx1 = Ok fallback
  ∧ categorize_transaction env (says "[1, 2]") tx1 = Ok fallback.
Proof.
  split.
  - destruct (categorize_transaction_never_raises env down tx1) as (_ & _ & H & _).
    apply (H (value "" (transaction_desc env tx1))).
    + apply value_Ok. vm_compute. reflexivity.
    + reflexivity.
  - destruct (categorize_transaction_never_raises env (says "[1, 2]") tx1)
      as (_ & _ & _ & H).
    apply (H (value "" (transaction_desc env tx1)) "[1, 2]" "[1, 2]").
    + apply value_Ok. vm_compute. reflexivity.
    + reflexivity.
    + vm_compute. reflexivity.
    + intros items. vm_compute. discriminate.
Defined.

(** The answer "food" is normalized to "Food & Dining", the first
    category that contains it. *)
Lemma primary_category_in_enumeration_witness :
  ∃ r, normalize env (answer "food" "Groceries" 0.6) = Ok r
       ∧ r !! "primary_category" = Some (VStr "Food & Dining").
Proof.
  destruct (primary_category_in_enumeration env) as (_ & _ & H & _).
  exists (value ∅ (normalize env (answer "food" "Groceries" 0.6))).
  assert (Hn : normalize env (answer "food" "Groceries" 0.6)
               = Ok (value ∅ (normalize env (answer "food" "Groceries" 0.6)))).
  { apply value_Ok. vm_compute. reflexivity. }
  split; [exact Hn|].
  destruct (H _ _ "food" Hn) as [Hfirst _].
  - vm_compute. reflexivity.
  - intros Hin. apply list_elem_of_In in Hin. vm_compute in Hin.
    intuition discriminate.
  - apply (Hfirst [] "Food & Dining"
             (List.tl CATEGORIES)).
    + reflexivity.
    + constructor.
    + left. exists "", " & dining". vm_compute. reflexivity.
Defined.

(** C5, as stated, fails: the classifier answers with confidence 1.5
    and the result carries 1.5. *)
Lemma confidence_above_one :
  ∃ r q,
    categorize_transaction env
      (says ("I think: " +:+ answer_text "Shopping" "Clothing" "1.5")) tx1 = Ok r
    ∧ r !! "confidence" = Some (VFloat q)
    ∧ ¬ (0 <= q ∧ q <= 1)%Q.
Proof.
  exists (value ∅ (categorize_transaction env
            (says ("I think: " +:+ answer_text "Shopping" "Clothing" "1.5")) tx1)),
         1.5%Q.
  split; [apply value_Ok; vm_compute; reflexivity|].
  split; [vm_compute; reflexivity|].
  intros [_ H]. vm_compute in H. by apply H.
Qed.

(** A confidence of 0.9 is within the bounds because the classifier's
    value is. *)
Lemma confidence_as_classified_witness :
  ∃ r q,
    categorize_transaction env shopping tx1 = Ok r
    ∧ r !! "confidence" = Some (VFloat q) ∧ (0 <= q ∧ q <= 1)%Q.
Proof.
  assert (Hr : categorize_transaction env shopping tx1
               = Ok (value ∅ (categorize_transaction env shopping tx1))).
  { apply value_Ok. vm_compute. reflexivity. }
  destruct (confidence_as_classified env shopping tx1 _ Hr) as (q & Hq & _ & Hrange).
  eexists _, q. split; [exact Hr|]. split; [exact Hq|].
  apply Hrange. intros items v q' Hc Hv Hf.
  assert (Hitems : VDict items = answer "Shopping" "Clothing" 0.9).
  { assert (Hc' : classify env shopping tx1 = Ok (answer "Shopping" "Clothing" 0.9))
      by (vm_compute; reflexivity).
    congruence. }
  injection Hitems as ->.
  assert (Hv' : v = VFloat 0.9).
  { vm_compute in Hv. congruence. }
  subst v. cbn in Hf. injection Hf as <-. split; discriminate.
Defined.

(** One transaction is categorized: the result keeps its keys and has
    the three keys of the categorization. *)
Lemma categorize_batch_merges_witness :
  ∃ out, categorize_batch env (λ _, shopping) [tx1] = Ok [out]
         ∧ out !! "transaction_id" = Some (VStr "t1")
         ∧ out !! "primary_category" = Some (VStr "Shopping").
Proof.
  destruct (categorize_batch_merges env (λ _, shopping) [tx1])
    as (results & Hr & Hlen & Hi).
  destruct (Hi 0%nat tx1 eq_refl) as (c & out & Hc & Hout & -> & _ & Hkeys & Hother).
  exists (dict_merge tx1 c).
  destruct results as [|out' [|? ?]]; try discriminate Hlen.
  injection Hout as ->. split; [exact Hr|].
  assert (Hp : c !! "primary_category" = Some (VStr "Shopping")).
  { assert (Hc' : categorize_transaction env shopping tx1
                  = Ok (value ∅ (categorize_transaction env shopping tx1)))
      by (apply value_Ok; vm_compute; reflexivity).
    rewrite Hc' in Hc. injection Hc as <-. vm_compute. reflexivity. }
  split.
  - rewrite Hother; [vm_compute; reflexivity|].
    intros Hin. apply list_elem_of_In in Hin. vm_compute in Hin.
    intuition discriminate.
  - destruct (Hkeys "primary_category") as [_ ->]; [|exact Hp].
    apply list_elem_of_In. left. reflexivity.
Defined.

(** a run that returns, with what it returns *)
Lemma run_returns (o : Outside) (s : bool) (w : World) :
  is_ok (fetch_and_process_transactions env o s w).1 = true →
  fetch_and_process_transactions env o s w
  = (Ok (value ∅ (fetch_and_process_transactions env o s w).1),
     (fetch_and_process_transactions env o s w).2).
Proof. apply value_Ok_pair. Qed.

Lemma fetched_returns (o : Outside) :
  is_ok (fetched env o) = true → fetched env o = Ok (value [] (fetched env o)).
Proof. apply value_Ok. Qed.

Lemma lookup_returns {A} (dflt : A) (x : option A) :
  (if x is Some _ then true else false) = true → x = Some (default dflt x).
Proof. by destruct x. Qed.

Lemma not_nil_length {A} (l : list A) : (0 <? length l)%nat = true → l ≠ [].
Proof. by destruct l. Qed.

(** Two purchases are ingested; the same feed again brings nothing new. *)
Lemma second_run_finds_nothing_new_witness :
  ∃ stats1 w1 stats2,
    fetch_and_process_transactions env two_purchases true empty_world = (Ok stats1, w1)
    ∧ length (rows w1) = 2%nat
    ∧ fetch_and_process_transactions env same_feed_later true w1 = (Ok stats2, w1)
    ∧ stats2 !! "new_transactions" = Some (VInt 0).
Proof.
  assert (Hrun1 := run_returns two_purchases true empty_world
                     ltac:(vm_compute; reflexivity)).
  destruct (second_run_finds_nothing_new env two_purchases same_feed_later
              true true empty_world _ _ eq_refl Hrun1)
    as [(stats2 & Hrun2 & Hnew & _) _].
  eexists _, _, stats2. split; [exact Hrun1|].
  split; [vm_compute; reflexivity|]. split; [exact Hrun2 | exact Hnew].
Defined.

(** Three new transactions, the classifier fails on the second: all
    three are categorized and the mean is (0.9 + 0.0 + 0.6) / 3. *)
Lemma average_confidence_is_mean_witness :
  ∃ stats w',
    fetch_and_process_transactions env three_purchases false empty_world = (Ok stats, w')
    ∧ stats !! "categorized" = Some (VInt 3)
    ∧ stats !! "average_confidence" = Some (VFloat (mean [0.9; 0; 0.6]%Q)).
Proof.
  assert (Hf : fetched env three_purchases = Ok (value [] (fetched env three_purchases)))
    by (apply fetched_returns; vm_compute; reflexivity).
  assert (Hrun := run_returns three_purchases false empty_world
                    ltac:(vm_compute; reflexivity)).
  destruct (average_confidence_is_mean env three_purchases false empty_world _ _ _
              Hf ltac:(apply not_nil_length; vm_compute; reflexivity) Hrun)
    as (_ & Hcat & Havg & _).
  cbn zeta in Hcat, Havg.
  assert (Hlen : length (new_of empty_world (value [] (fetched env three_purchases)))
                 = 3%nat) by (vm_compute; reflexivity).
  assert (Hconf : confidences_of env three_purchases
                    (new_of empty_world (value [] (fetched env three_purchases)))
                  = [0.9; 0; 0.6]%Q) by (vm_compute; reflexivity).
  rewrite Hlen in Hcat. rewrite Hconf in Havg.
  eexists _, _. split; [exact Hrun|]. split; [exact Hcat | exact Havg].
Defined.

(** One row is left unsynced by an earlier run and one transaction is
    new: two rows are pushed, one more than [new_transactions]. *)
Lemma sync_pushes_all_unsynced_witness :
  ∃ stats w',
    fetch_and_process_transactions env two_purchases true stale_world = (Ok stats, w')
    ∧ stats !! "new_transactions" = Some (VInt 1)
    ∧ stats !! "synced_to_sheets" = Some (VInt 2)
    ∧ (length <$> sheet w') = Some 3%nat.
Proof.
  assert (Hf : fetched env two_purchases = Ok (value [] (fetched env two_purchases)))
    by (apply fetched_returns; vm_compute; reflexivity).
  assert (Hrun := run_returns two_purchases true stale_world
                    ltac:(vm_compute; reflexivity)).
  destruct (sync_pushes_all_unsynced env two_purchases stale_world _ _ _
              Hf ltac:(apply not_nil_length; vm_compute; reflexivity)
              eq_refl eq_refl Hrun)
    as (_ & _ & Hsheet & _ & Hnew & Hsynced).
  cbn zeta in Hsheet, Hnew, Hsynced.
  assert (Hlen : length (new_of stale_world (value [] (fetched env two_purchases)))
                 = 1%nat) by (vm_compute; reflexivity).
  assert (Hold : length (unsynced_rows (rows stale_world)) = 1%nat)
    by (vm_compute; reflexivity).
  rewrite Hlen in Hnew. rewrite Hlen, Hold in Hsynced.
  eexists _, _. split; [exact Hrun|]. split; [exact Hnew|]. split; [exact Hsynced|].
  rewrite Hsheet. cbn [fmap option_fmap option_map length].
  rewrite !length_fmap. apply (f_equal (λ n, Some (S n))).
  vm_compute. reflexivity.
Defined.

(** No spreadsheet is configured: nothing is written, yet the new row
    is marked synced and counted. *)
Lemma unconfigured_sheet_marks_rows_synced_witness :
  ∃ stats w',
    fetch_and_process_transactions env unconfigured true empty_world = (Ok stats, w')
    ∧ sheet w' = None
    ∧ Database.synced_to_sheets <$> rows w' = [true]
    ∧ stats !! "synced_to_sheets" = Some (VInt 1).
Proof.
  assert (Hf : fetched env unconfigured = Ok (value [] (fetched env unconfigured)))
    by (apply fetched_returns; vm_compute; reflexivity).
  assert (Hrun := run_returns unconfigured true empty_world
                    ltac:(vm_compute; reflexivity)).
  destruct (unconfigured_sheet_marks_rows_synced env unconfigured empty_world _ _ _
              Hf ltac:(apply not_nil_length; vm_compute; reflexivity) eq_refl Hrun)
    as (Hsheet & Hrows & _ & Hsynced & _).
  cbn zeta in Hrows, Hsynced.
  assert (Hlen : length (unsynced_rows (rows empty_world ++
             made_rows env (categorized_of env unconfigured
               (new_of empty_world (value [] (fetched env unconfigured))))))
           = 1%nat) by (vm_compute; reflexivity).
  rewrite Hlen in Hsynced.
  eexists _, _. split; [exact Hrun|]. split; [exact Hsheet|].
  split; [|exact Hsynced].
  rewrite Hrows. vm_compute. reflexivity.
Defined.

(** Three new transactions, the third repeats the identifier of the
    first: the run raises and the table stays empty. *)
Lemma duplicate_id_aborts_run_witness :
  fetch_and_process_transactions env repeated_id true empty_world
  = (Raise IntegrityError, empty_world).
Proof.
  assert (Hf : fetched env repeated_id = Ok (value [] (fetched env repeated_id)))
    by (apply fetched_returns; vm_compute; reflexivity).
  apply (duplicate_id_aborts_run env repeated_id true empty_world _ 2%nat
           (default stored_t1
              (made_rows env (categorized_of env repeated_id
                 (new_of empty_world (value [] (fetched env repeated_id)))) !! 2%nat))
           Hf).
  - apply lookup_returns. vm_compute. reflexivity.
  - vm_compute. reflexivity.
Defined.

(** The feed is empty: four statistics, and [main] raises. *)
Lemma short_circuit_statistics_witness :
  ∃ stats,
    fetch_and_process_transactions env empty_feed true empty_world
    = (Ok stats, empty_world)
    ∧ size stats = 4%nat
    ∧ main env empty_feed empty_world
      = (Raise (KeyError "average_confidence"), empty_world).
Proof.
  destruct (short_circuit_statistics env empty_feed true empty_world)
    as (stats & Hrun & _ & _ & _ & _ & _ & _ & Hmain).
  - reflexivity.
  - exists stats. split; [exact Hrun|]. split; [|exact Hmain].
    assert (Hs : stats = short_stats 0).
    { assert (Hrun' : fetch_and_process_transactions env empty_feed true empty_world
                      = (Ok (short_stats 0), empty_world)) by reflexivity.
      congruence. }
    rewrite Hs. vm_compute. reflexivity.
Defined.

End examples.


(** * Further properties of the categorization service *)

Section more_categorization.
Import GeminiClient GeminiFacts PipelineFacts Demo.
Variable E : Env.

(** X1: the name of a category, written in any letter case, is matched
    to that category by [_find_closest_category]. *)
Theorem category_name_in_any_case (c raw : string) :
  c ∈ CATEGORIES → lower raw = lower c →
  _find_closest_category (VStr raw) = Ok (Some c).
Proof.
  intros Hc Hraw. unfold _find_closest_category. rewrite Hraw.
  apply list_elem_of_In in Hc. cbn in Hc.
  repeat (destruct Hc as [<-|Hc]; [vm_compute; reflexivity|]).
  destruct Hc.
Qed.

(** X2: when the amount of the transaction is not a number, building the
    prompt raises, the classifier is not consulted and the result is the
    fallback whatever the classifier would have said. *)
Theorem unreadable_amount_gives_fallback (model : Classifier) (tx : pydict) (e : exn) :
  py_abs (dict_get tx "amount" (VInt 0)) = Raise e →
  classify E model tx = Raise e
  ∧ categorize_transaction E model tx = Ok fallback.
Proof.
  intros Ha.
  assert (Hc : classify E model tx = Raise e).
  { unfold classify, transaction_desc. by rewrite Ha. }
  split; [exact Hc|].
  unfold categorize_transaction, categorize_body. by rewrite Hc.
Qed.

(** X3: an answer that parses to an object without the three keys is
    completed with the defaults "Other", the empty subcategory and the
    confidence 0.5, which is not the fallback. *)
Theorem missing_keys_get_defaults (model : Classifier) (tx : pydict)
    (items : list (string * pyval)) :
  classify E model tx = Ok (VDict items) →
  (list_to_map items : pydict) !! "primary_category" = None →
  (list_to_map items : pydict) !! "subcategory" = None →
  (list_to_map items : pydict) !! "confidence" = None →
  categorize_transaction E model tx
  = Ok {[ "primary_category" := VStr "Other";
          "subcategory" := VStr "";
          "confidence" := VFloat 0.5 ]}
  ∧ categorize_transaction E model tx ≠ Ok fallback.
Proof.
  intros Hc Hp Hs Hf.
  assert (Hr : categorize_transaction E model tx
               = Ok {[ "primary_category" := VStr "Other";
                       "subcategory" := VStr "";
                       "confidence" := VFloat 0.5 ]}).
  { unfold categorize_transaction, categorize_body. rewrite Hc.
    cbn [mbind res_bind]. unfold normalize, py_get, dict_get.
    rewrite Hp, Hs, Hf. reflexivity. }
  split; [exact Hr|]. rewrite Hr. intros H. discriminate H.
Qed.

(** X4: when the [primary_category] of the parsed answer is not a
    string, the whole answer is dropped: the result is the fallback,
    whatever subcategory and confidence the answer has. *)
Theorem non_string_category_gives_fallback (model : Classifier) (tx : pydict)
    (items : list (string * pyval)) (v : pyval) :
  classify E model tx = Ok (VDict items) →
  (list_to_map items : pydict) !! "primary_category" = Some v →
  (∀ s, v ≠ VStr s) →
  categorize_transaction E model tx = Ok fallback.
Proof.
  intros Hc Hp Hv.
  unfold categorize_transaction, categorize_body. rewrite Hc.
  cbn [mbind res_bind]. unfold normalize, py_get, dict_get. rewrite Hp.
  cbn [mbind res_bind default].
  destruct v; try reflexivity. by destruct (Hv s).
Qed.

End more_categorization.

(** * Further properties of the string functions *)

Section more_strings.
Import GeminiClient.

Lemma string_app_cons (x : ascii) (a b : string) :
  String x a +:+ b = String x (a +:+ b).
Proof. reflexivity. Qed.

Lemma string_app_nil_l (a : string) : "" +:+ a = a.
Proof. reflexivity. Qed.

Lemma string_app_assoc (a b c : string) : (a +:+ b) +:+ c = a +:+ (b +:+ c).
Proof.
  induction a as [|x a IH]; [reflexivity|].
  rewrite !string_app_cons. by rewrite IH.
Qed.

Lemma string_app_empty_r (a : string) : a +:+ "" = a.
Proof.
  induction a as [|x a IH]; [reflexivity|].
  rewrite string_app_cons. by rewrite IH.
Qed.

Lemma contains_char_cons (x c : ascii) (s : string) :
  contains (String x "") (String c s) = false →
  Ascii.eqb x c = false ∧ contains (String x "") s = false.
Proof.
  cbn [contains starts_with]. intros H. apply orb_false_iff in H as [H1 H2].
  split; [|exact H2]. destruct (Ascii.eqb x c); [|done].
  cbn in H1. by destruct s.
Qed.

Lemma contains_char_app (x : ascii) (a b : string) :
  contains (String x "") (a +:+ b) = false →
  contains (String x "") a = false ∧ contains (String x "") b = false.
Proof.
  induction a as [|c a IH]; rewrite ?(string_app_cons c a), ?string_app_nil_l; intros H.
  - split; [reflexivity | exact H].
  - apply contains_char_cons in H as [Hc H]. destruct (IH H) as [Ha Hb].
    split; [|exact Hb].
    cbn [contains starts_with]. rewrite Hc, Ha. reflexivity.
Qed.

(** *** The braced substring *)

Lemma until_close_Some s b :
  until_close s = Some b →
  ∃ r, s = b +:+ "}" +:+ r ∧ contains "}" b = false.
Proof.
  revert b. induction s as [|c s IH]; intros b; cbn [until_close]; [done|].
  destruct (Ascii.eqb c "}") eqn:Hc.
  - intros [= <-]. apply Ascii.eqb_eq in Hc as ->. by exists s.
  - destruct (until_close s) as [b'|]; [|done]. intros [= <-].
    destruct (IH b' eq_refl) as (r & -> & Hb). exists r. split; [done|].
    cbn [contains starts_with]. rewrite Ascii.eqb_sym, Hc, Hb. reflexivity.
Qed.

Lemma until_close_app b r :
  contains "}" b = false → until_close (b +:+ "}" +:+ r) = Some b.
Proof.
  induction b as [|c b IH]; intros Hb; [reflexivity|].
  apply contains_char_cons in Hb as [Hc Hb].
  rewrite (string_app_cons c b). cbn [until_close].
  rewrite Ascii.eqb_sym, Hc, (IH Hb). reflexivity.
Qed.

(** a braced substring as [\{[^}]+\}] matches it *)
Definition braced (m : string) : Prop :=
  ∃ body, m = "{" +:+ body +:+ "}" ∧ body ≠ "" ∧ contains "}" body = false.

Lemma braces_here_Some s m :
  braces_here s = Some m ↔ braced m ∧ ∃ r, s = m +:+ r.
Proof.
  unfold braces_here, braced. split.
  - destruct s as [|c s]; [done|].
    destruct (Ascii.eqb c "{") eqn:Hc; [|done]. apply Ascii.eqb_eq in Hc as ->.
    destruct (until_close s) as [[|b body]|] eqn:Hu; try done. intros [= <-].
    apply until_close_Some in Hu as (r & -> & Hb). split.
    + by exists (String b body).
    + exists r. cbn. by rewrite !string_app_assoc.
  - intros [(body & -> & Hne & Hb) (r & ->)].
    replace (("{" +:+ body +:+ "}") +:+ r) with (String "{" (body +:+ "}" +:+ r))
      by (rewrite !string_app_assoc; reflexivity).
    rewrite Ascii.eqb_refl, (until_close_app _ _ Hb).
    by destruct body.
Qed.

(** X5: [re.search(r'\{[^}]+\}', text)] as modelled by [re_search_braces].
    What it finds is a substring of the text made of an opening brace, at
    least one character none of which is a closing brace, and a closing
    brace; it finds nothing only when the text has no such substring. *)
Theorem re_search_braces_finds_braced (s : string) :
  match re_search_braces s with
  | Some m => braced m ∧ ∃ l r, s = l +:+ m +:+ r
  | None => ∀ l m r, braced m → s ≠ l +:+ m +:+ r
  end.
Proof.
  induction s as [|c s IH]; cbn [re_search_braces].
  - cbn. intros l m r (body & -> & _ & _) H. destruct l; discriminate H.
  - destruct (braces_here (String c s)) as [m|] eqn:Hb.
    + apply braces_here_Some in Hb as [Hm (r & Hr)]. split; [exact Hm|].
      by exists "", r.
    + destruct (re_search_braces s) as [m|].
      * destruct IH as (Hm & l & r & ->). split; [exact Hm|].
        by exists (String c l), r.
      * intros l m r Hm Heq. destruct l as [|c' l].
        -- cbn in Heq. assert (braces_here (String c s) = Some m) as Hsome.
           { apply braces_here_Some. split; [exact Hm|]. by exists r. }
           congruence.
        -- injection Heq as -> ->. by apply (IH l m r).
Qed.

(** *** Splitting at a separator that starts with a backtick *)

Lemma starts_with_app sep rest : starts_with sep (sep +:+ rest) = true.
Proof.
  induction sep as [|c sep IH]; [reflexivity|].
  rewrite string_app_cons. cbn [starts_with]. by rewrite Ascii.eqb_refl, IH.
Qed.

Lemma split_go_skip sep cur s1 s2 :
  split_go sep (String.length s1) cur (s1 +:+ s2) = split_go sep 0 cur s2.
Proof.
  induction s1 as [|c s1 IH]; [reflexivity|].
  rewrite string_app_cons. cbn [String.length split_go]. exact IH.
Qed.

Lemma split_go_at_sep c sep cur rest :
  split_go (String c sep) 0 cur (String c sep +:+ rest)
  = cur :: split_go (String c sep) 0 "" rest.
Proof.
  rewrite (string_app_cons c sep). cbn [split_go].
  rewrite (starts_with_app (String c sep) rest : starts_with _ (String c (sep +:+ rest)) = true).
  replace (String.length (String c sep) - 1)%nat with (String.length sep)
    by (cbn [String.length]; lia).
  by rewrite split_go_skip.
Qed.

Lemma split_go_plain sep cur pre rest :
  contains "`" pre = false →
  split_go (String "`" sep) 0 cur (pre +:+ rest)
  = split_go (String "`" sep) 0 (cur +:+ pre) rest.
Proof.
  revert cur. induction pre as [|c pre IH]; intros cur Hpre.
  - by rewrite string_app_empty_r.
  - apply contains_char_cons in Hpre as [Hc Hpre].
    rewrite (string_app_cons c pre). cbn [split_go starts_with]. rewrite Hc. cbn [andb].
    rewrite (IH _ Hpre). by rewrite string_app_assoc.
Qed.

Lemma split_go_no_backtick sep cur s :
  contains "`" s = false → split_go (String "`" sep) 0 cur s = [cur +:+ s].
Proof.
  intros Hs. rewrite <- (string_app_empty_r s) at 1.
  by rewrite (split_go_plain _ _ _ _ Hs).
Qed.

Lemma split_go_miss sep cur c s :
  starts_with sep (String c s) = false →
  split_go sep 0 cur (String c s) = split_go sep 0 (cur +:+ String c "") s.
Proof. intros H. cbn [split_go]. by rewrite H. Qed.

Lemma starts_with_cons c sep s :
  starts_with (String c sep) (String c s) = starts_with sep s.
Proof. cbn [starts_with]. by rewrite Ascii.eqb_refl. Qed.

Lemma starts_with_backtick sep s :
  contains "`" s = false → starts_with (String "`" sep) s = false.
Proof.
  destruct s as [|c s]; [reflexivity|].
  intros [Hc _]%contains_char_cons. cbn [starts_with]. by rewrite Hc.
Qed.

(** the piece between a ```json fence and the next one starts with the
    block and goes on, if at all, with the closing fence *)
Lemma split_json_after_fence body post :
  contains "`" body = false → contains "`" post = false →
  ∃ rest, py_split "```json" (body +:+ "```" +:+ post)
          = body :: rest
          ∨ py_split "```json" (body +:+ "```" +:+ post)
            = (body +:+ "```" +:+ post) :: rest.
Proof.
  intros Hbody Hpost. unfold py_split.
  rewrite (split_go_plain _ _ _ _ Hbody), string_app_nil_l.
  destruct (starts_with "json" post) eqn:Hjson.
  - apply starts_with_spec in Hjson as [post' ->].
    replace ("```" +:+ "json" +:+ post') with ("```json" +:+ post') by reflexivity.
    rewrite (split_go_at_sep "`" "``json"). eexists. by left.
  - change ("```" +:+ post) with (String "`" (String "`" (String "`" post))).
    rewrite split_go_miss by (by rewrite !starts_with_cons).
    rewrite split_go_miss
      by (rewrite !starts_with_cons; by apply starts_with_backtick).
    rewrite split_go_miss
      by (rewrite !starts_with_cons; by apply starts_with_backtick).
    rewrite (split_go_no_backtick _ _ post Hpost).
    exists []. right. f_equal. rewrite !string_app_assoc. reflexivity.
Qed.

(** X6: a response that holds one block fenced with ```json and no other
    backtick is reduced to the stripped content of the block. *)
Theorem fenced_json_is_extracted (pre body post : string) :
  contains "`" pre = false → contains "`" body = false →
  contains "`" post = false →
  extract_json (pre +:+ "```json" +:+ body +:+ "```" +:+ post) = Ok (strip body).
Proof.
  intros Hpre Hbody Hpost. unfold extract_json.
  assert (contains "```json" (pre +:+ "```json" +:+ body +:+ "```" +:+ post) = true) as ->.
  { apply contains_spec. by exists pre, (body +:+ "```" +:+ post). }
  assert (Hsplit : ∃ rest,
            py_split "```json" (pre +:+ "```json" +:+ body +:+ "```" +:+ post)
            = pre :: body :: rest
            ∨ py_split "```json" (pre +:+ "```json" +:+ body +:+ "```" +:+ post)
              = pre :: (body +:+ "```" +:+ post) :: rest).
  { unfold py_split. rewrite (split_go_plain _ _ _ _ Hpre), string_app_nil_l.
    rewrite (split_go_at_sep "`" "``json").
    destruct (split_json_after_fence body post Hbody Hpost) as [rest [H | H]];
      unfold py_split in H; rewrite H; eauto. }
  destruct Hsplit as [rest [-> | ->]];
    cbn [list_item lookup list_lookup mbind res_bind]; unfold py_split.
  - by rewrite (split_go_no_backtick _ _ body Hbody).
  - rewrite (split_go_plain _ _ _ _ Hbody), string_app_nil_l.
    by rewrite (split_go_at_sep "`" "``").
Qed.

End more_strings.

(** * Further properties of the clients and of the table *)

Section more_clients.
Import DatabaseFacts PipelineFacts.
Variable E : Env.

(** ** plaid_client.py *)

Lemma mapM_raises {A B} (f : A → res B) (l : list A) (i : nat) (x : A) :
  l !! i = Some x → (∃ e, f x = Raise e) → ∃ e, mapM f l = Raise e.
Proof.
  revert i. induction l as [|y l IH]; intros i Hi [e He]; [done|].
  cbn [mapM]. destruct i as [|i].
  - injection Hi as ->. rewrite He. by exists e.
  - destruct (f y) as [b|e']; [|by exists e'].
    destruct (IH i Hi) as [e' He']; [by exists e|].
    cbn. setoid_rewrite He'. by exists e'.
Qed.

(** X7: when [get_transactions] returns, it returns one dict per
    transaction of the response, in the same order; each dict has
    exactly the ten keys, the identifier, account, amount and name of
    the transaction, its parsed date, and the name as description and
    [False] as pending flag where the transaction has none. *)
Theorem get_transactions_shape (token : string)
    (ts : list PlaidClient.PlaidTransaction) (txs : list pydict) :
  PlaidClient.get_transactions E token (Ok ts) = Ok txs →
  token ≠ ""
  ∧ length txs = length ts
  ∧ ∀ i t, ts !! i = Some t →
      ∃ tx day,
        txs !! i = Some tx
        ∧ strptime_ymd E (PlaidClient.date t) = Some day
        ∧ dom tx = list_to_set
            [ "transaction_id"; "account_id"; "amount"; "date"; "name";
              "merchant_name"; "description"; "is_pending"; "category";
              "category_id" ]
        ∧ tx !! "transaction_id" = Some (VStr (PlaidClient.transaction_id t))
        ∧ tx !! "account_id" = Some (VStr (PlaidClient.account_id t))
        ∧ tx !! "amount" = Some (VFloat (PlaidClient.amount t))
        ∧ tx !! "date" = Some (VDate day)
        ∧ tx !! "name" = Some (VStr (PlaidClient.name t))
        ∧ tx !! "description"
          = Some (default (VStr (PlaidClient.name t)) (PlaidClient.original_description t))
        ∧ tx !! "is_pending"
          = Some (default (VBool false) (PlaidClient.pending t)).
Proof.
  unfold PlaidClient.get_transactions. case_bool_decide as Htoken; [done|].
  intros Hm%mapM_Ok. split; [exact Htoken|].
  split; [symmetry; eapply Forall2_length, Hm|].
  intros i t Hi.
  destruct (Forall2_lookup_l _ _ _ _ _ Hm Hi) as (tx & Htx & Hdict).
  unfold PlaidClient.transaction_dict in Hdict.
  destruct (strptime_ymd E (PlaidClient.date t)) as [day|]; [|done].
  injection Hdict as <-. eexists _, day.
  split; [exact Htx|]. split; [reflexivity|].
  split; [|repeat split; reflexivity].
  rewrite !dom_insert_L, dom_singleton_L. cbn. set_solver.
Qed.

(** X8: [get_transactions] gives all or nothing.  Without an access
    token it raises [ValueError] whatever the response; an error of the
    request is raised again; and one date that does not parse makes the
    whole call raise. *)
Theorem get_transactions_all_or_nothing (token : string)
    (response : res (list PlaidClient.PlaidTransaction)) :
  (token = "" → PlaidClient.get_transactions E token response = Raise ValueError)
  ∧ (∀ e, token ≠ "" → response = Raise e →
       PlaidClient.get_transactions E token response = Raise e)
  ∧ (∀ ts i t, response = Ok ts → ts !! i = Some t →
       strptime_ymd E (PlaidClient.date t) = None →
       ∃ e, PlaidClient.get_transactions E token response = Raise e).
Proof.
  unfold PlaidClient.get_transactions. split; [|split].
  - intros ->. reflexivity.
  - intros e Htoken ->. by rewrite bool_decide_eq_false_2.
  - intros ts i t -> Hi Hdate. case_bool_decide; [by eexists|].
    eapply mapM_raises; [exact Hi|].
    unfold PlaidClient.transaction_dict. rewrite Hdate. by eexists.
Qed.

(** ** database.py *)




(** a flush succeeds exactly when no new row has an identifier, other
    than NULL, that a row of the table or an earlier row of the batch
    has *)
Lemma flush_succeeds_iff_no_collision (rows new : list Database.Transaction) :
  Database.flush rows new = Ok (rows ++ new)
  ↔ ∀ i row, new !! i = Some row →
      Database.collides row (rows ++ take i new) = false.
Proof.
  split.
  - intros Hf i row Hi.
    destruct (Database.collides row (rows ++ take i new)) eqn:Hc; [|done].
    rewrite (flush_collision _ _ _ _ Hi Hc) in Hf. discriminate Hf.
  - apply flush_no_collision.
Qed.

(** ** sheets_client.py *)

(** X10: a successful [sync_transactions] replaces the sheet: whatever
    the sheet held, even when it did not exist, it then holds the header
    and one row of nine cells per transaction, in order; doing it again
    changes nothing. *)
Theorem sync_transactions_overwrites (id : option string) (data : list pydict)
    (sh : SheetsClient.Sheet) :
  SheetsClient.no_spreadsheet id = false →
  ∃ written,
    SheetsClient.sync_transactions E id SheetsClient.NoFault data sh
    = (Ok (), Some written)
    ∧ written = SheetsClient.headers :: (SheetsClient.sheet_row E <$> data)
    ∧ length written = S (length data)
    ∧ Forall (λ row, length row = 9%nat) written
    ∧ SheetsClient.sync_transactions E id SheetsClient.NoFault data (Some written)
      = (Ok (), Some written).
Proof.
  intros Hid. eexists. split; [by apply sync_transactions_pushes|].
  split; [reflexivity|]. split; [cbn; by rewrite length_fmap|].
  split; [|by apply sync_transactions_pushes].
  constructor; [reflexivity|]. apply Forall_fmap, Forall_forall. by intros.
Qed.


(** X12: [append_transactions] never removes a row: whatever it
    returns, the rows the sheet had are still its first rows.  With
    nothing to append, or without a spreadsheet, it sends no request and
    returns even when the request would fail. *)
Theorem append_transactions_keeps_rows (id : option string) (fails : bool)
    (data : list pydict) (sh sh' : SheetsClient.Sheet) (r : res unit) :
  SheetsClient.append_transactions E id fails data sh = (r, sh') →
  (∀ rows, sh = Some rows → ∃ more, sh' = Some (rows ++ more))
  ∧ (sh = None → sh' = None)
  ∧ (SheetsClient.no_spreadsheet id = true ∨ data = [] → r = Ok () ∧ sh' = sh)
  ∧ (r = Ok () → SheetsClient.no_spreadsheet id = false → ∀ rows, sh = Some rows →
       sh' = Some (rows ++ (SheetsClient.sheet_row E <$> data))).
Proof.
  unfold SheetsClient.append_transactions.
  assert (Hnil : ∀ rows : list (list pyval), ∃ more, Some rows = Some (rows ++ more)).
  { intros rows. exists []. by rewrite app_nil_r. }
  destruct (SheetsClient.no_spreadsheet id) eqn:Hid.
  { intros [= <- <-]. split_and!; [intros rows ->; apply Hnil|done..]. }
  destruct data as [|tx data]; cbn [fmap list_fmap].
  { intros [= <- <-]. split_and!; [intros rows ->; apply Hnil|done|done|].
    intros _ _ rows ->. by rewrite app_nil_r. }
  destruct sh as [rows|]; [destruct fails|]; intros [= <- <-].
  - split_and!; [intros ? [= <-]; apply Hnil|done| |done].
    by intros [[=]|[=]].
  - split_and!; [intros ? [= <-]; by eexists|done| |].
    + by intros [[=]|[=]].
    + by intros _ _ ? [= <-].
  - split_and!; [done|done| |done]. by intros [[=]|[=]].
Qed.

End more_clients.

(** * Further properties of the pipeline *)

Section more_pipeline.
Import GeminiClient GeminiFacts DatabaseFacts PipelineFacts SpendSmart.
Variable E : Env.

Lemma length_remove_dups_le {A} `{EqDecision A} (l : list A) :
  (length (remove_dups l) ≤ length l)%nat.
Proof.
  induction l as [|x l IH]; [done|]. cbn [remove_dups].
  destruct (decide_rel _ x l); cbn; lia.
Qed.

Lemma length_remove_dups_pos {A} `{EqDecision A} (l : list A) :
  (0 < length l)%nat → (1 ≤ length (remove_dups l))%nat.
Proof.
  destruct l as [|x l]; [cbn; lia|]. intros _.
  assert (x ∈ remove_dups (x :: l)) as Hx by (apply elem_of_remove_dups; left).
  destruct (remove_dups (x :: l)); [by apply elem_of_nil in Hx | cbn; lia].
Qed.

(** the rows of a run, one per new transaction *)
Lemma made_rows_lookup (g : nat → pydict → pydict) txs j tx :
  (∀ j tx, well_formed (g j tx)) → Forall feed_dict txs → txs !! j = Some tx →
  ∃ row, made_rows E (imap (λ j tx, dict_merge tx (g j tx)) txs) !! j = Some row
         ∧ make_row E (dict_merge tx (g j tx)) = Ok row.
Proof.
  revert g j. induction txs as [|tx0 txs IH]; intros g j Hg Hfeed Hj; [done|].
  apply Forall_cons in Hfeed as [Hfeed0 Hfeed].
  rewrite imap_cons. cbn [made_rows omap list_omap].
  destruct (make_row_feed E tx0 (g 0%nat tx0) Hfeed0 (Hg 0%nat tx0)) as [row0 Hrow0].
  rewrite Hrow0. destruct j as [|j].
  - injection Hj as <-. by exists row0.
  - apply (IH (g ∘ S) j (λ j tx, Hg (S j) tx) Hfeed Hj).
Qed.

Lemma made_rows_length (g : nat → pydict → pydict) txs :
  (∀ j tx, well_formed (g j tx)) → Forall feed_dict txs →
  length (made_rows E (imap (λ j tx, dict_merge tx (g j tx)) txs)) = length txs.
Proof.
  intros Hg Hfeed.
  destruct (made_rows_merged E g txs Hg) as (_ & _ & Hids).
  by rewrite <- (length_fmap Database.transaction_id), (Hids Hfeed), length_fmap.
Qed.

Lemma new_of_feed w txs : Forall feed_dict txs → Forall feed_dict (new_of w txs).
Proof.
  intros H. apply Forall_forall. intros tx [_ Htx]%list_elem_of_filter.
  by eapply Forall_forall in H.
Qed.

(** what a run that returns does to the table *)
Lemma run_appends o s w stats w' :
  fetch_and_process_transactions E o s w = (Ok stats, w') →
  ∃ txs, fetched E o = Ok txs
    ∧ let stored := made_rows E (categorized_of E o (new_of w txs)) in
      length stored = length (new_of w txs)
      ∧ (rows w' = rows w ++ stored
         ∨ rows w' = Database.mark_synced <$> (rows w ++ stored)).
Proof.
  intros Hrun. destruct (fetched E o) as [txs|e] eqn:Hf.
  2:{ rewrite (run_feed_error _ _ _ _ _ Hf) in Hrun. discriminate Hrun. }
  exists txs. split; [reflexivity|]. cbn zeta.
  assert (Hlen : length (made_rows E (categorized_of E o (new_of w txs)))
                 = length (new_of w txs)).
  { apply made_rows_length; [intros; apply categorization_well_formed|].
    eapply new_of_feed, feed_dicts, Hf. }
  split; [exact Hlen|].
  destruct (decide (new_of w txs = [])) as [Hn|Hn].
  - rewrite (run_short _ _ _ _ _ Hf Hn) in Hrun. injection Hrun as _ <-.
    left. rewrite Hn. cbn. by rewrite app_nil_r.
  - destruct (run_completed E _ _ _ _ _ _ Hf Hn Hrun) as (n & rows' & sh' & Hs & _ & ->).
    cbn zeta in Hs. cbn [rows]. destruct s.
    + pose proof (after_sync_rows E o
        (rows w ++ made_rows E (categorized_of E o (new_of w txs))) (sheet w)) as Hr.
      rewrite Hs in Hr. cbn in Hr. destruct Hr as [-> | ->]; auto.
    + injection Hs as _ <- _. by left.
Qed.

(** the row made from a transaction merged with its categorization *)
Lemma make_row_merged_fields tx c row :
  well_formed c → make_row E (dict_merge tx c) = Ok row →
  tx !! "transaction_id" = Some (Database.transaction_id row)
  ∧ tx !! "account_id" = Some (Database.account_id row)
  ∧ tx !! "amount" = Some (Database.amount row)
  ∧ tx !! "date" = Some (Database.date row)
  ∧ tx !! "name" = Some (Database.name row)
  ∧ Database.merchant_name row = dict_get tx "merchant_name" VNone
  ∧ Database.description row = dict_get tx "description" VNone
  ∧ Database.is_pending row = dict_get tx "is_pending" (VBool false)
  ∧ c !! "primary_category" = Some (Database.primary_category row)
  ∧ c !! "subcategory" = Some (Database.subcategory row)
  ∧ c !! "confidence" = Some (Database.category_confidence row)
  ∧ Database.category row
    = VStr (py_format E (Database.primary_category row) +:+ " - "
            +:+ py_format E (Database.subcategory row)).
Proof.
  intros Hwf. unfold make_row, dict_item, dict_get.
  rewrite !(merged_lookup _ _ _ Hwf).
  destruct Hwf as (cat & sub & conf & -> & _).
  vm_compute (bool_decide _).
  destruct (tx !! "transaction_id"); [|done].
  destruct (tx !! "account_id"); [|done].
  destruct (tx !! "amount"); [|done].
  destruct (tx !! "date"); [|done].
  destruct (tx !! "name"); [|done].
  cbn [mbind res_bind]. intros [= <-]. cbn. repeat split; reflexivity.
Qed.

(** X13: a failure of the fetch is fatal and has no effect: without an
    access token the run raises [ValueError], an error of the feed is
    raised as it is, and in both cases the table and the sheet are
    untouched. *)
Theorem fetch_failure_is_fatal (o : Outside) (s : bool) (w : World) :
  (access_token o = "" →
   fetch_and_process_transactions E o s w = (Raise ValueError, w))
  ∧ (∀ e, access_token o ≠ "" → response o = Raise e →
       fetch_and_process_transactions E o s w = (Raise e, w)).
Proof.
  split.
  - intros Htoken. apply run_feed_error.
    unfold fetched, PlaidClient.get_all_transactions_since, PlaidClient.get_transactions.
    by rewrite Htoken.
  - intros e Htoken He. apply run_feed_error.
    unfold fetched, PlaidClient.get_all_transactions_since, PlaidClient.get_transactions.
    by rewrite He, bool_decide_eq_false_2.
Qed.

(** X14: with [sync_to_sheets=False] a run never touches the sheet: the
    new rows are stored unsynced after the rows of the table, which stay
    as they are, and [synced_to_sheets] is 0. *)
Theorem no_sync_leaves_sheet_alone (o : Outside) (w w' : World) (stats : pydict) :
  fetch_and_process_transactions E o false w = (Ok stats, w') →
  sheet w' = sheet w
  ∧ stats !! "synced_to_sheets" = Some (VInt 0)
  ∧ ∃ stored, rows w' = rows w ++ stored
      ∧ Forall (λ row, Database.synced_to_sheets row = false) stored.
Proof.
  intros Hrun. destruct (fetched E o) as [txs|e] eqn:Hf.
  2:{ rewrite (run_feed_error _ _ _ _ _ Hf) in Hrun. discriminate Hrun. }
  destruct (decide (new_of w txs = [])) as [Hn|Hn].
  - rewrite (run_short _ _ _ _ _ Hf Hn) in Hrun. injection Hrun as <- <-.
    split; [done|]. split; [done|]. exists []. by rewrite app_nil_r.
  - destruct (run_completed E _ _ _ _ _ _ Hf Hn Hrun) as (n & rows' & sh' & Hs & -> & ->).
    cbn zeta in Hs. injection Hs as <- <- <-.
    split; [done|]. split; [done|]. eexists. split; [reflexivity|].
    apply (made_rows_merged E (λ j tx, categorization E (models o j) tx)).
    intros. apply categorization_well_formed.
Qed.

(** X15: a run that returns stores one row per new transaction, in the
    order of the feed, after the rows of the table.  The row has the
    identifier, account, amount, date, name, merchant, description and
    pending flag of the transaction, and the category, subcategory and
    confidence of its categorization. *)
Theorem stored_rows_carry_the_facts (o : Outside) (s : bool) (w w' : World)
    (txs : list pydict) (stats : pydict) :
  fetched E o = Ok txs →
  fetch_and_process_transactions E o s w = (Ok stats, w') →
  length (rows w') = (length (rows w) + length (new_of w txs))%nat
  ∧ ∀ j tx, new_of w txs !! j = Some tx →
      ∃ row c,
        rows w' !! (length (rows w) + j)%nat = Some row
        ∧ categorize_transaction E (models o j) tx = Ok c
        ∧ tx !! "transaction_id" = Some (Database.transaction_id row)
        ∧ tx !! "account_id" = Some (Database.account_id row)
        ∧ tx !! "amount" = Some (Database.amount row)
        ∧ tx !! "date" = Some (Database.date row)
        ∧ tx !! "name" = Some (Database.name row)
        ∧ Database.merchant_name row = dict_get tx "merchant_name" VNone
        ∧ Database.description row = dict_get tx "description" VNone
        ∧ Database.is_pending row = dict_get tx "is_pending" (VBool false)
        ∧ c !! "primary_category" = Some (Database.primary_category row)
        ∧ c !! "subcategory" = Some (Database.subcategory row)
        ∧ c !! "confidence" = Some (Database.category_confidence row)
        ∧ Database.category row
          = VStr (py_format E (Database.primary_category row) +:+ " - "
                  +:+ py_format E (Database.subcategory row)).
Proof.
  intros Hf Hrun.
  destruct (run_appends _ _ _ _ _ Hrun) as (txs' & Hf' & Hlen & Hrows).
  rewrite Hf in Hf'. injection Hf' as <-. cbn zeta in *.
  set (stored := made_rows E (categorized_of E o (new_of w txs))) in *.
  split.
  { destruct Hrows as [-> | ->]; rewrite ?length_fmap, length_app; lia. }
  intros j tx Hj.
  assert (Hfeed : Forall feed_dict (new_of w txs))
    by (eapply new_of_feed, feed_dicts, Hf).
  destruct (made_rows_lookup (λ j tx, categorization E (models o j) tx) _ j tx
              ltac:(intros; apply categorization_well_formed) Hfeed Hj)
    as (row & Hrow & Hmake).
  fold (categorized_of E o (new_of w txs)) in Hrow. fold stored in Hrow.
  pose proof (categorization_well_formed E (models o j) tx) as Hwf.
  set (c := categorization E (models o j) tx) in *.
  pose proof (make_row_merged_fields _ _ _ Hwf Hmake) as Hfacts.
  assert (Hat : (rows w ++ stored) !! (length (rows w) + j)%nat = Some row).
  { by rewrite lookup_app_r, Nat.add_comm, Nat.add_sub by lia. }
  destruct Hrows as [-> | ->].
  - exists row, c. split; [exact Hat|].
    split; [apply categorize_transaction_total | exact Hfacts].
  - exists (Database.mark_synced row), c. split; [by rewrite list_lookup_fmap, Hat|].
    split; [apply categorize_transaction_total | exact Hfacts].
Qed.

(** X16: no run removes or rewrites a stored row, whether it returns
    or raises: every row of the table is afterwards at the same place,
    unchanged or with nothing but its synced flag set. *)
Theorem rows_are_never_lost (o : Outside) (s : bool) (w : World) (i : nat)
    (row : Database.Transaction) :
  rows w !! i = Some row →
  ∃ row', rows (fetch_and_process_transactions E o s w).2 !! i = Some row'
          ∧ (row' = row ∨ row' = Database.mark_synced row)
          ∧ (Database.synced_to_sheets row = true → row' = row).
Proof.
  intros Hi.
  destruct (run_rows E o s w) as (stored & _ & _ & Hrows). cbn zeta in Hrows.
  destruct Hrows as [-> | [-> | ->]].
  - exists row. auto.
  - exists row. split; [by apply lookup_app_l_Some | auto].
  - exists (Database.mark_synced row).
    split; [by rewrite list_lookup_fmap, (lookup_app_l_Some _ _ _ _ Hi)|].
    split; [by right | apply mark_synced_same].
Qed.

(** X17: [categories_used] of a run that categorized something is at
    least 1, at most 13 and at most the number of new transactions. *)
Theorem categories_used_bounds (o : Outside) (s : bool) (w w' : World)
    (txs : list pydict) (stats : pydict) :
  fetched E o = Ok txs → new_of w txs ≠ [] →
  fetch_and_process_transactions E o s w = (Ok stats, w') →
  ∃ n, stats !! "categories_used" = Some (VInt (Z.of_nat n))
       ∧ (1 ≤ n)%nat ∧ (n ≤ 13)%nat ∧ (n ≤ length (new_of w txs))%nat.
Proof.
  intros Hf Hn Hrun.
  destruct (run_completed E _ _ _ _ _ _ Hf Hn Hrun) as (k & rows' & sh' & _ & -> & _).
  cbn zeta. unfold full_stats.
  set (names := (λ tx, dict_get tx "primary_category" (VStr "Other"))
                  <$> categorized_of E o (new_of w txs)).
  exists (length (remove_dups names)).
  split; [by rewrite !lookup_insert_ne, lookup_singleton_eq by done|].
  assert (Hlen : length names = length (new_of w txs)).
  { unfold names, categorized_of. by rewrite length_fmap, length_imap. }
  assert (Hnames : ∀ x, x ∈ names → x ∈ VStr <$> CATEGORIES).
  { intros x (tx' & -> & Htx')%list_elem_of_fmap.
    unfold categorized_of in Htx'.
    apply list_elem_of_lookup in Htx' as [j Hj].
    rewrite list_lookup_imap in Hj.
    destruct (new_of w txs !! j) as [tx|]; [|done]. injection Hj as <-.
    pose proof (categorization_well_formed E (models o j) tx) as Hwf.
    unfold dict_get. rewrite (merged_lookup _ _ _ Hwf).
    destruct Hwf as (c & sub & conf & -> & Hc).
    rewrite bool_decide_eq_true_2 by (apply list_elem_of_In; left; reflexivity).
    rewrite lookup_insert_eq. cbn [default].
    apply (list_elem_of_fmap_2 VStr CATEGORIES c Hc). }
  split; [|split].
  - apply length_remove_dups_pos. rewrite Hlen.
    destruct (new_of w txs); [done | cbn; lia].
  - change 13%nat with (length (VStr <$> CATEGORIES)).
    apply submseteq_length, NoDup_submseteq.
    + apply NoDup_remove_dups.
    + intros x Hx. apply Hnames. revert Hx. apply elem_of_remove_dups.
  - rewrite <- Hlen. apply length_remove_dups_le.
Qed.

(** X18: the statistics of a run that returns fit together:
    [total_fetched] is the size of the feed, [new_transactions] is at
    most that, [categorized] equals [new_transactions], the table has
    grown by [new_transactions] rows and [synced_to_sheets] is at most
    the number of rows of the table. *)
Theorem statistics_are_consistent (o : Outside) (s : bool) (w w' : World)
    (stats : pydict) :
  fetch_and_process_transactions E o s w = (Ok stats, w') →
  ∃ (txs new : list pydict) (synced : nat),
    fetched E o = Ok txs
    ∧ stats !! "total_fetched" = Some (VInt (Z.of_nat (length txs)))
    ∧ stats !! "new_transactions" = Some (VInt (Z.of_nat (length new)))
    ∧ stats !! "categorized" = Some (VInt (Z.of_nat (length new)))
    ∧ stats !! "synced_to_sheets" = Some (VInt (Z.of_nat synced))
    ∧ new = new_of w txs
    ∧ (length new ≤ length txs)%nat
    ∧ length (rows w') = (length (rows w) + length new)%nat
    ∧ (synced ≤ length (rows w'))%nat.
Proof.
  intros Hrun.
  destruct (run_appends _ _ _ _ _ Hrun) as (txs & Hf & Hlen & Hrows). cbn zeta in *.
  assert (Hgrown : length (rows w') = (length (rows w) + length (new_of w txs))%nat).
  { destruct Hrows as [-> | ->]; rewrite ?length_fmap, length_app; lia. }
  assert (Hle : (length (new_of w txs) ≤ length txs)%nat) by apply length_filter.
  destruct (decide (new_of w txs = [])) as [Hn|Hn].
  - rewrite (run_short _ _ _ _ _ Hf Hn) in Hrun. injection Hrun as <- <-.
    exists txs, (new_of w txs), 0%nat. rewrite Hn. cbn [length].
    split_and!; try done; lia.
  - destruct (run_completed E _ _ _ _ _ _ Hf Hn Hrun) as (n & rows' & sh' & Hs & -> & ->).
    cbn zeta in Hs. exists txs, (new_of w txs), n.
    unfold full_stats, categorized_of. rewrite length_imap.
    split_and!; try done.
    cbn [rows] in *. destruct s.
    + unfold after_sync in Hs.
      pose proof (length_filter (λ row, Database.synced_to_sheets row = false)
        (rows w ++ made_rows E (categorized_of E o (new_of w txs)))) as Hlf.
      fold (unsynced_rows (rows w ++ made_rows E (categorized_of E o (new_of w txs))))
        in Hlf.
      destruct (unsynced_rows _) as [|row pushed].
      { injection Hs as <- _ _. lia. }
      destruct (SheetsClient.sync_transactions _ _ _ _ _) as [[u|e] sh''];
        injection Hs as <- <- <-; [|lia].
      by rewrite length_fmap.
    + injection Hs as <- _ _. lia.
Qed.


Lemma classifier_down_fallback (model : Classifier) (tx : pydict) :
  (∀ prompt, model prompt = None) → categorization E model tx = fallback.
Proof.
  intros Hdown. unfold categorization, categorize_transaction, categorize_body, classify.
  destruct (transaction_desc E tx) as [desc|e]; [|reflexivity].
  cbn [mbind res_bind]. by rewrite Hdown.
Qed.

Lemma mean_of_zeros (qs : list Q) : Forall (λ q, q = 0%Q) qs → (mean qs == 0)%Q.
Proof.
  intros Hqs. unfold mean.
  assert (Hsum : (foldr Qplus 0 qs == 0)%Q).
  { induction Hqs as [|q qs -> _ IH]; cbn [foldr]; [reflexivity|].
    rewrite IH. reflexivity. }
  rewrite Hsum. unfold Qdiv. apply Qmult_0_l.
Qed.

Lemma remove_dups_constant {A} `{EqDecision A} (x : A) (l : list A) :
  Forall (λ y, y = x) l → l ≠ [] → remove_dups l = [x].
Proof.
  induction 1 as [|y l -> Hl IH]; [done|]. intros _. cbn [remove_dups].
  destruct (decide_rel _ x l) as [Hin|Hout].
  - apply IH. intros ->. by apply elem_of_nil in Hin.
  - destruct l as [|z l]; [done|].
    apply Forall_cons in Hl as [-> _]. destruct Hout. left.
Qed.

(** X20: when the classifier is down for every call, the run still
    returns and stores every new transaction, each with the fallback
    category "Other", subcategory "Uncategorized" and confidence 0.0;
    exactly one category is used and the mean confidence is zero. *)
Theorem classifier_down_still_ingests (o : Outside) (s : bool) (w w' : World)
    (txs : list pydict) (stats : pydict) :
  (∀ call prompt, models o call prompt = None) →
  fetched E o = Ok txs → new_of w txs ≠ [] →
  fetch_and_process_transactions E o s w = (Ok stats, w') →
  stats !! "categories_used" = Some (VInt 1)
  ∧ (∃ q, stats !! "average_confidence" = Some (VFloat q) ∧ (q == 0)%Q)
  ∧ ∀ j, (j < length (new_of w txs))%nat →
      ∃ row, rows w' !! (length (rows w) + j)%nat = Some row
             ∧ Database.primary_category row = VStr "Other"
             ∧ Database.subcategory row = VStr "Uncategorized"
             ∧ Database.category_confidence row = VFloat 0.
Proof.
  intros Hdown Hf Hn Hrun.
  assert (Hcat : ∀ j tx, categorization E (models o j) tx = fallback).
  { intros j tx. apply classifier_down_fallback, Hdown. }
  destruct (run_appends _ _ _ _ _ Hrun) as (txs' & Hf' & Hlen & Hrows).
  rewrite Hf in Hf'. injection Hf' as <-. cbn zeta in *.
  destruct (run_completed E _ _ _ _ _ _ Hf Hn Hrun) as (n & rows' & sh' & _ & -> & _).
  cbn zeta. unfold full_stats. split_and!.
  - rewrite !lookup_insert_ne, lookup_singleton_eq by done.
    rewrite (remove_dups_constant (VStr "Other")); [done| |].
    + apply Forall_fmap, Forall_forall. intros tx' Htx'.
      unfold categorized_of in Htx'. apply list_elem_of_lookup in Htx' as [j Hj].
      rewrite list_lookup_imap in Hj.
      destruct (new_of w txs !! j) as [tx|]; [|done]. injection Hj as <-.
      rewrite Hcat. cbn. unfold dict_get.
      by rewrite (merged_lookup _ _ _ fallback_well_formed).
    + unfold categorized_of. by destruct (new_of w txs).
  - eexists. split; [by rewrite !lookup_insert_ne, lookup_insert_eq by done|].
    apply mean_of_zeros. apply Forall_forall. intros q Hq.
    unfold confidences_of in Hq. apply list_elem_of_lookup in Hq as [j Hj].
    rewrite list_lookup_imap in Hj.
    destruct (new_of w txs !! j) as [tx|]; [|done]. injection Hj as <-.
    by rewrite Hcat.
  - intros j Hj.
    destruct (lookup_lt_is_Some_2 _ _ Hj) as [tx Htx].
    assert (Hfeed : Forall feed_dict (new_of w txs))
      by (eapply new_of_feed, feed_dicts, Hf).
    destruct (made_rows_lookup (λ j tx, categorization E (models o j) tx) _ j tx
                ltac:(intros; apply categorization_well_formed) Hfeed Htx)
      as (row & Hrow & Hmake).
    cbn beta in Hmake. rewrite Hcat in Hmake.
    destruct (make_row_merged_fields _ _ _ fallback_well_formed Hmake)
      as (_ & _ & _ & _ & _ & _ & _ & _ & Hp & Hs & Hc & _).
    assert (Hat : (rows w ++ made_rows E (categorized_of E o (new_of w txs)))
                    !! (length (rows w) + j)%nat = Some row).
    { by rewrite lookup_app_r, Nat.add_comm, Nat.add_sub by lia. }
    change (fallback !! "primary_category") with (Some (VStr "Other")) in Hp.
    change (fallback !! "subcategory") with (Some (VStr "Uncategorized")) in Hs.
    change (fallback !! "confidence") with (Some (VFloat 0)) in Hc.
    injection Hp as Hp. injection Hs as Hs. injection Hc as Hc.
    destruct Hrows as [-> | ->].
    + by exists row.
    + exists (Database.mark_synced row). rewrite list_lookup_fmap, Hat. by cbn.
Qed.

(** X21: when a request of the push fails, the run still returns: the
    rows it stored are in the table, unsynced, [synced_to_sheets] is 0,
    and the sheet is as it was or empty.  A later run that finds
    nothing new does not retry the push: it leaves those rows unsynced
    and the sheet as it is, even when the requests would succeed. *)
Theorem failed_push_is_not_retried_alone (o o2 : Outside) (s2 : bool) (w w1 : World)
    (txs txs2 : list pydict) (stats : pydict) :
  fetched E o = Ok txs → new_of w txs ≠ [] →
  SheetsClient.no_spreadsheet (spreadsheet_id o) = false →
  fault o = SheetsClient.GetFails ∨ fault o = SheetsClient.ClearFails
  ∨ fault o = SheetsClient.UpdateFails →
  fetch_and_process_transactions E o true w = (Ok stats, w1) →
  fetched E o2 = Ok txs2 → new_of w1 txs2 = [] →
  stats !! "synced_to_sheets" = Some (VInt 0)
  ∧ (∃ stored, rows w1 = rows w ++ stored
       ∧ length stored = length (new_of w txs)
       ∧ Forall (λ row, Database.synced_to_sheets row = false) stored)
  ∧ (sheet w1 = sheet w ∨ sheet w1 = Some [])
  ∧ fetch_and_process_transactions E o2 s2 w1 = (Ok (short_stats (length txs2)), w1).
Proof.
  intros Hf Hn Hid Hfault Hrun Hf2 Hn2.
  split_and!; [| | |by apply run_short].
  all: destruct (run_appends _ _ _ _ _ Hrun) as (txs' & Hf' & Hlen & _).
  all: rewrite Hf in Hf'; injection Hf' as <-; cbn zeta in Hlen.
  all: destruct (made_rows_merged E (λ j tx, categorization E (models o j) tx)
                   (new_of w txs)) as (_ & Hun & _);
         [intros; apply categorization_well_formed|].
  all: destruct (run_completed E _ _ _ _ _ _ Hf Hn Hrun)
         as (n & rows' & sh' & Hs & -> & ->).
  all: cbn zeta in Hs; unfold after_sync in Hs.
  all: destruct (unsynced_rows _) as [|row pushed];
         [injection Hs as <- <- <-|].
  all: try (destruct (sync_transactions_fails E _ _ (sheets_dict <$> row :: pushed)
                        (sheet w) Hid Hfault) as [sh'' Hfail]).
  - reflexivity.
  - rewrite Hfail in Hs. by injection Hs as <- <- <-.
  - by exists (made_rows E (categorized_of E o (new_of w txs))).
  - rewrite Hfail in Hs. injection Hs as <- <- <-.
    by exists (made_rows E (categorized_of E o (new_of w txs))).
  - by left.
  - revert Hfail Hs. unfold SheetsClient.sync_transactions,
      SheetsClient.create_sheet_if_not_exists. rewrite Hid.
    destruct Hfault as [-> | [-> | ->]], (sheet w); cbn;
      intros [= <-] [= <- <- <-]; cbn; auto.
Qed.

End more_pipeline.

(** * Properties of the category summary *)

Section category_summary.
Import GeminiClient GeminiFacts PipelineFacts SpendSmart.

(** the category under which a row is counted *)
Definition category_of (row : Database.Transaction) : pyval :=
  or_Other (Database.primary_category row).

(** what a [String] column holds *)
Definition text_or_null (v : pyval) : Prop := v = VNone ∨ ∃ s, v = VStr s.

(** the entry of a category, and its count, 0 when there is none *)
Definition entry (k : pyval) (totals : list (pyval * Totals)) : option Totals :=
  snd <$> List.find (λ kt, bool_decide (kt.1 = k)) totals.

Definition count_of (k : pyval) (totals : list (pyval * Totals)) : nat :=
  from_option count 0%nat (entry k totals).

Lemma entry_add category x totals k :
  entry k (add_to_category category x totals)
  = if decide (k = category)
    then Some (match entry category totals with
               | Some t => {| count := S (count t); total := total t + x |}
               | None => {| count := 1; total := 0 + x |}
               end)
    else entry k totals.
Proof.
  unfold entry. induction totals as [|[k' t] totals IH]; cbn [add_to_category].
  - cbn. by repeat (case_decide || case_bool_decide); simplify_eq.
  - destruct (decide (k' = category)) as [->|Hk']; cbn [List.find fst].
    + by repeat (case_decide || case_bool_decide); simplify_eq.
    + rewrite (bool_decide_eq_false_2 (k' = category)) by done.
      destruct (bool_decide (k' = k)) eqn:Hkk.
      * apply bool_decide_eq_true in Hkk as ->. by rewrite decide_False.
      * apply IH.
Qed.

Lemma keys_add category x totals :
  (add_to_category category x totals).*1
  = if decide (category ∈ totals.*1) then totals.*1 else totals.*1 ++ [category].
Proof.
  induction totals as [|[k t] totals IH]; cbn [add_to_category].
  - by rewrite decide_False by apply not_elem_of_nil.
  - destruct (decide (k = category)) as [->|Hk]; cbn [fmap list_fmap fst].
    + by rewrite decide_True by left.
    + fold (totals.*1). fold ((add_to_category category x totals).*1). rewrite IH.
      destruct (decide (category ∈ totals.*1)) as [Hin|Hout].
      * by rewrite decide_True by (by right).
      * rewrite decide_False; [done|]. intros [?|?]%elem_of_cons; congruence.
Qed.

Lemma truthy_or_Other v : truthy (or_Other v) = true.
Proof. unfold or_Other. by destruct (truthy v) eqn:Hv. Qed.

Lemma py_abs_nonneg v x : py_abs v = Ok x → (0 <= x)%Q.
Proof.
  destruct v; cbn; try done; intros [= <-].
  - by destruct b.
  - unfold Qle. cbn. lia.
  - apply Qabs_nonneg.
Qed.

Lemma add_to_category_nonneg category x totals :
  (0 <= x)%Q → Forall (λ kt, (0 <= total kt.2)%Q) totals →
  Forall (λ kt, (0 <= total kt.2)%Q) (add_to_category category x totals).
Proof.
  intros Hx. induction 1 as [|[k t] totals Ht Htotals IH]; cbn [add_to_category].
  - constructor; [|constructor]. cbn [snd total]. by rewrite Qplus_0_l.
  - destruct (decide (k = category)); constructor; try done.
    cbn [snd total] in *.
    apply (Qplus_le_compat 0 (total t) 0 x Ht Hx).
Qed.

(** the loop of [get_category_summary], from any dict it has built *)
Lemma summary_loop_spec rows acc totals :
  summary_loop rows acc = Ok totals →
  (NoDup acc.*1 → NoDup totals.*1)
  ∧ (Forall (λ k, truthy k = true) acc.*1 → Forall (λ k, truthy k = true) totals.*1)
  ∧ (Forall (λ kt, (0 <= total kt.2)%Q) acc → Forall (λ kt, (0 <= total kt.2)%Q) totals)
  ∧ ∀ k, count_of k totals
         = (count_of k acc + length (filter (λ row, category_of row = k) rows))%nat.
Proof.
  revert acc. induction rows as [|row rows IH]; intros acc; cbn [summary_loop].
  - intros [= <-]. by split_and!.
  - intros H. bind_inv H. bind_inv H. rename a0 into x.
    fold (category_of row) in *.
    destruct (IH _ H) as (Hnodup & Htruthy & Hnonneg & Hcount). split_and!.
    + intros Hacc. apply Hnodup. rewrite keys_add. case_decide; [done|].
      apply NoDup_app. split_and!; [done| |apply NoDup_singleton].
      intros k Hk ->%list_elem_of_singleton. done.
    + intros Hacc. apply Htruthy. rewrite keys_add. case_decide; [done|].
      apply Forall_app. split; [done|]. constructor; [|done].
      apply truthy_or_Other.
    + intros Hacc. apply Hnonneg, add_to_category_nonneg; [|done].
      by eapply py_abs_nonneg.
    + intros k. rewrite Hcount. unfold count_of at 1. rewrite entry_add.
      rewrite filter_cons.
      destruct (decide (k = category_of row)) as [->|Hk].
      * rewrite decide_True by done. unfold count_of.
        destruct (entry (category_of row) acc); cbn; lia.
      * rewrite decide_False by congruence. unfold count_of. lia.
Qed.

Lemma summary_loop_keys (P : pyval → Prop) rows acc totals :
  summary_loop rows acc = Ok totals →
  Forall (λ row, P (category_of row)) rows → Forall P acc.*1 → Forall P totals.*1.
Proof.
  revert acc. induction rows as [|row rows IH]; intros acc; cbn [summary_loop].
  - by intros [= <-] _ Hacc.
  - intros H Hrows Hacc. bind_inv H. bind_inv H.
    fold (category_of row) in *.
    apply Forall_cons in Hrows as [Hrow Hrows].
    eapply IH; [exact H | exact Hrows|].
    rewrite keys_add. case_decide; [done|].
    apply Forall_app. split; [done|]. by constructor.
Qed.

Lemma category_of_text row :
  text_or_null (Database.primary_category row) →
  ∃ s, category_of row = VStr s ∧ s ≠ "".
Proof.
  unfold category_of, or_Other. intros [-> | [s ->]]; cbn.
  - by exists "Other".
  - case_bool_decide; cbn; [by exists "Other" | by exists s].
Qed.

(** X22: on a table whose categories are strings or NULL, as the column
    holds them, a summary that [get_category_summary] returns has one
    entry per category, whose key is a string that is not empty, whose
    count is the number of stored rows of that category and whose total
    is not negative.  A row without category (NULL or empty) is counted
    under "Other". *)
Theorem category_summary_counts_rows (w : World) (totals : list (pyval * Totals)) :
  Forall (λ row, text_or_null (Database.primary_category row)) (rows w) →
  get_category_summary w = Ok totals →
  NoDup totals.*1
  ∧ Forall (λ k, ∃ s, k = VStr s ∧ s ≠ "") totals.*1
  ∧ Forall (λ kt, (0 <= total kt.2)%Q) totals
  ∧ ∀ k, count_of k totals
         = length (filter (λ row, category_of row = k) (rows w)).
Proof.
  intros Htext Hsum.
  pose proof (summary_loop_keys (λ k, ∃ s, k = VStr s ∧ s ≠ "") _ _ _ Hsum) as Hkeys.
  apply summary_loop_spec in Hsum as (Hnodup & _ & Hnonneg & Hcount).
  split_and!.
  - apply Hnodup. constructor.
  - apply Hkeys; [|constructor].
    eapply Forall_impl; [exact Htext|]. intros row. apply category_of_text.
  - apply Hnonneg. constructor.
  - intros k. by rewrite Hcount.
Qed.

(** X23: a stored row whose amount is NULL makes
    [get_category_summary] raise [TypeError]: no summary is returned. *)
Theorem category_summary_needs_amounts (w : World) (i : nat)
    (row : Database.Transaction) :
  rows w !! i = Some row → Database.amount row = VNone →
  get_category_summary w = Raise TypeError.
Proof.
  unfold get_category_summary. generalize (@nil (pyval * Totals)).
  revert i. induction (rows w) as [|row0 rows IH]; intros i acc Hi Hamount; [done|].
  cbn [summary_loop].
  destruct (in_set (or_Other (Database.primary_category row0)) []) as [known|e] eqn:Hin.
  2:{ revert Hin. destruct (or_Other (Database.primary_category row0)); cbn;
      intros Hin; by simplify_eq. }
  cbn [mbind res_bind].
  destruct (py_abs (Database.amount row0)) as [x|e] eqn:Habs.
  2:{ revert Habs. destruct (Database.amount row0); cbn; intros Habs; by simplify_eq. }
  cbn [mbind res_bind]. destruct i as [|i].
  - injection Hi as ->. rewrite Hamount in Habs. discriminate Habs.
  - by apply (IH i).
Qed.

End category_summary.

(** * The further properties at concrete inputs *)

Section more_examples.
Import GeminiClient GeminiFacts DatabaseFacts PipelineFacts SpendSmart Demo DemoMore.

(** "SHOPPING" is the category "Shopping". *)
Lemma category_name_in_any_case_witness :
  _find_closest_category (VStr "SHOPPING") = Ok (Some "Shopping").
Proof.
  apply category_name_in_any_case.
  - apply list_elem_of_In. right. left. reflexivity.
  - vm_compute. reflexivity.
Defined.

(** the braced substring of a text with an empty pair of braces before *)
Lemma re_search_braces_finds_braced_witness :
  re_search_braces "so {} then {a{b} and c}" = Some "{a{b}"
  ∧ braced "{a{b}".
Proof.
  pose proof (re_search_braces_finds_braced "so {} then {a{b} and c}") as H.
  assert (Hm : re_search_braces "so {} then {a{b} and c}" = Some "{a{b}")
    by (vm_compute; reflexivity).
  rewrite Hm in H. destruct H as [H _]. split; [exact Hm | exact H].
Defined.

(** a fenced answer between two lines of text *)
Lemma fenced_json_is_extracted_witness :
  extract_json ("Sure!" +:+ nl +:+ "```json" +:+ nl +:+ bare_text +:+ nl
                +:+ "```" +:+ nl +:+ "bye")
  = Ok bare_text.
Proof.
  change (extract_json (("Sure!" +:+ nl) +:+ "```json" +:+ (nl +:+ bare_text +:+ nl)
                        +:+ "```" +:+ (nl +:+ "bye"))
          = Ok (strip (nl +:+ bare_text +:+ nl))).
  apply fenced_json_is_extracted; vm_compute; reflexivity.
Defined.

(** the amount is [None]: the fallback, though the classifier answers *)
Lemma unreadable_amount_gives_fallback_witness :
  categorize_transaction env shopping tx_no_amount = Ok fallback.
Proof.
  apply (unreadable_amount_gives_fallback env shopping tx_no_amount TypeError).
  vm_compute. reflexivity.
Defined.

(** the answer [{}] *)
Lemma missing_keys_get_defaults_witness :
  categorize_transaction env_more (says bare_text) tx1
  = Ok {[ "primary_category" := VStr "Other";
          "subcategory" := VStr "";
          "confidence" := VFloat 0.5 ]}.
Proof.
  apply (missing_keys_get_defaults env_more (says bare_text) tx1 []);
    vm_compute; reflexivity.
Defined.

(** the answer [{"primary_category": 5, "confidence": 0.9}] *)
Lemma non_string_category_gives_fallback_witness :
  categorize_transaction env_more (says odd_text) tx1 = Ok fallback.
Proof.
  apply (non_string_category_gives_fallback env_more (says odd_text) tx1
           [ ("primary_category", VInt 5); ("confidence", VFloat 0.9) ] (VInt 5)).
  - vm_compute. reflexivity.
  - vm_compute. reflexivity.
  - intros s. discriminate.
Defined.

(** two transactions of the feed *)
Lemma get_transactions_shape_witness :
  ∃ txs tx,
    PlaidClient.get_transactions env "access-sandbox" (Ok [purchase "t1"; purchase "t2"])
    = Ok txs
    ∧ length txs = 2%nat
    ∧ txs !! 1%nat = Some tx
    ∧ tx !! "transaction_id" = Some (VStr "t2")
    ∧ tx !! "description" = Some (VStr "ACME STORE").
Proof.
  assert (Hget := value_Ok []
    (PlaidClient.get_transactions env "access-sandbox" (Ok [purchase "t1"; purchase "t2"]))
    ltac:(vm_compute; reflexivity)).
  destruct (get_transactions_shape env _ _ _ Hget) as (_ & Hlen & Hi).
  destruct (Hi 1%nat (purchase "t2") eq_refl)
    as (tx & day & Htx & _ & _ & Hid & _ & _ & _ & _ & Hdesc & _).
  eexists _, tx. split; [exact Hget|]. split; [exact Hlen|].
  split; [exact Htx|]. split; [exact Hid | exact Hdesc].
Defined.

(** the second transaction has no date that parses *)
Lemma get_transactions_all_or_nothing_witness :
  (∃ e, PlaidClient.get_transactions env_more "access-sandbox"
          (Ok [purchase "t1"; undated "t2"; purchase "t3"]) = Raise e)
  ∧ PlaidClient.get_transactions env_more "" (Ok [purchase "t1"]) = Raise ValueError.
Proof.
  split.
  - destruct (get_transactions_all_or_nothing env_more "access-sandbox"
                (Ok [purchase "t1"; undated "t2"; purchase "t3"])) as (_ & _ & H).
    apply (H _ 1%nat (undated "t2") eq_refl); reflexivity.
  - destruct (get_transactions_all_or_nothing env_more ""
                (Ok [purchase "t1"])) as (H & _ & _).
    by apply H.
Defined.


(** the sheet that did not exist holds the header and one row *)
Lemma sync_transactions_overwrites_witness :
  ∃ written,
    SheetsClient.sync_transactions env (Some "sheet-1") SheetsClient.NoFault
      [sheets_dict stored_t1] None = (Ok (), Some written)
    ∧ length written = 2%nat.
Proof.
  destruct (sync_transactions_overwrites env (Some "sheet-1") [sheets_dict stored_t1]
              None eq_refl) as (written & Hs & _ & Hlen & _).
  exists written. split; [exact Hs | exact Hlen].
Defined.


(** one row is appended below the header *)
Lemma append_transactions_keeps_rows_witness :
  ∃ more,
    SheetsClient.append_transactions env (Some "sheet-1") false
      [sheets_dict stored_t1] (Some [SheetsClient.headers])
    = (Ok (), Some ([SheetsClient.headers]
                    ++ (SheetsClient.sheet_row env <$> [sheets_dict stored_t1])))
    ∧ Some ([SheetsClient.headers]
            ++ (SheetsClient.sheet_row env <$> [sheets_dict stored_t1]))
      = Some ([SheetsClient.headers] ++ more).
Proof.
  assert (Hrun : SheetsClient.append_transactions env (Some "sheet-1") false
            [sheets_dict stored_t1] (Some [SheetsClient.headers])
          = (Ok (), Some ([SheetsClient.headers]
                          ++ (SheetsClient.sheet_row env <$> [sheets_dict stored_t1]))))
    by reflexivity.
  destruct (append_transactions_keeps_rows env _ _ _ _ _ _ Hrun) as (H & _).
  destruct (H _ eq_refl) as (more & Hm).
  exists more. split; [exact Hrun | exact Hm].
Defined.

(** no access token *)
Lemma fetch_failure_is_fatal_witness :
  fetch_and_process_transactions env no_token true mixed_world
  = (Raise ValueError, mixed_world).
Proof.
  destruct (fetch_failure_is_fatal env no_token true mixed_world) as [H _].
  by apply H.
Defined.

(** one row waits for its push, one transaction is new, and the run
    does not sync *)
Lemma no_sync_leaves_sheet_alone_witness :
  ∃ stats w',
    fetch_and_process_transactions env two_purchases false stale_world = (Ok stats, w')
    ∧ sheet w' = None
    ∧ stats !! "synced_to_sheets" = Some (VInt 0).
Proof.
  assert (Hrun := run_returns two_purchases false stale_world
                    ltac:(vm_compute; reflexivity)).
  destruct (no_sync_leaves_sheet_alone env _ _ _ _ Hrun) as (Hsheet & Hsynced & _).
  eexists _, _. split; [exact Hrun|]. split; [exact Hsheet | exact Hsynced].
Defined.

(** the row stored for the new transaction "t2" *)
Lemma stored_rows_carry_the_facts_witness :
  ∃ stats w' row (c : pydict),
    fetch_and_process_transactions env two_purchases true stale_world = (Ok stats, w')
    ∧ length (rows w') = 2%nat
    ∧ rows w' !! 1%nat = Some row
    ∧ Some (VStr "t2") = Some (Database.transaction_id row)
    ∧ c !! "primary_category" = Some (Database.primary_category row)
    ∧ c !! "confidence" = Some (Database.category_confidence row).
Proof.
  assert (Hf : fetched env two_purchases = Ok (value [] (fetched env two_purchases)))
    by (apply fetched_returns; vm_compute; reflexivity).
  assert (Hrun := run_returns two_purchases true stale_world
                    ltac:(vm_compute; reflexivity)).
  destruct (stored_rows_carry_the_facts env _ _ _ _ _ _ Hf Hrun) as (Hlen & Hrows).
  assert (Hnew : length (new_of stale_world (value [] (fetched env two_purchases)))
                 = 1%nat) by (vm_compute; reflexivity).
  rewrite Hnew in Hlen.
  destruct (Hrows 0%nat
              (default ∅ (new_of stale_world (value [] (fetched env two_purchases))
                          !! 0%nat))
              ltac:(apply lookup_returns; vm_compute; reflexivity))
    as (row & c & Hrow & _ & Hid & _ & _ & _ & _ & _ & _ & _ & Hp & _ & Hconf & _).
  assert (Hid' : default ∅ (new_of stale_world (value [] (fetched env two_purchases))
                            !! 0%nat) !! "transaction_id" = Some (VStr "t2"))
    by (vm_compute; reflexivity).
  rewrite Hid' in Hid.
  exists (value ∅ (fetch_and_process_transactions env two_purchases true stale_world).1),
    (fetch_and_process_transactions env two_purchases true stale_world).2, row, c.
  split; [exact Hrun|]. split; [exact Hlen|].
  split; [exact Hrow|]. split; [exact Hid|]. split; [exact Hp | exact Hconf].
Defined.

(** the row of an earlier run is still the first row *)
Lemma rows_are_never_lost_witness :
  ∃ row',
    rows (fetch_and_process_transactions env two_purchases true stale_world).2 !! 0%nat
    = Some row'
    ∧ (row' = stored_t1 ∨ row' = Database.mark_synced stored_t1).
Proof.
  destruct (rows_are_never_lost env two_purchases true stale_world 0%nat stored_t1
              eq_refl) as (row' & Hrow & Hsame & _).
  exists row'. split; [exact Hrow | exact Hsame].
Defined.

(** three new transactions *)
Lemma categories_used_bounds_witness :
  ∃ stats w' n,
    fetch_and_process_transactions env three_purchases false empty_world = (Ok stats, w')
    ∧ stats !! "categories_used" = Some (VInt (Z.of_nat n))
    ∧ (1 ≤ n)%nat ∧ (n ≤ 3)%nat.
Proof.
  assert (Hf : fetched env three_purchases = Ok (value [] (fetched env three_purchases)))
    by (apply fetched_returns; vm_compute; reflexivity).
  assert (Hrun := run_returns three_purchases false empty_world
                    ltac:(vm_compute; reflexivity)).
  destruct (categories_used_bounds env three_purchases false empty_world _ _ _
              Hf ltac:(apply not_nil_length; vm_compute; reflexivity) Hrun)
    as (n & Hused & Hone & _ & Hnew).
  assert (Hlen : length (new_of empty_world (value [] (fetched env three_purchases)))
                 = 3%nat) by (vm_compute; reflexivity).
  rewrite Hlen in Hnew.
  eexists _, _, n. split; [exact Hrun|]. split; [exact Hused|].
  split; [exact Hone | exact Hnew].
Defined.

(** two fetched, one of them new *)
Lemma statistics_are_consistent_witness :
  ∃ stats w' synced,
    fetch_and_process_transactions env two_purchases true stale_world = (Ok stats, w')
    ∧ stats !! "total_fetched" = Some (VInt 2)
    ∧ stats !! "new_transactions" = Some (VInt 1)
    ∧ stats !! "categorized" = Some (VInt 1)
    ∧ stats !! "synced_to_sheets" = Some (VInt (Z.of_nat synced))
    ∧ (synced ≤ length (rows w'))%nat.
Proof.
  assert (Hf : fetched env two_purchases = Ok (value [] (fetched env two_purchases)))
    by (apply fetched_returns; vm_compute; reflexivity).
  assert (Hrun := run_returns two_purchases true stale_world
                    ltac:(vm_compute; reflexivity)).
  destruct (statistics_are_consistent env _ _ _ _ _ Hrun)
    as (txs & new & synced & Hf' & Htotal & Hnew & Hcat & Hsynced & -> & _ & _ & Hle).
  assert (Htxs : txs = value [] (fetched env two_purchases)) by congruence.
  subst txs.
  assert (Hfetched : length (value [] (fetched env two_purchases)) = 2%nat)
    by (vm_compute; reflexivity).
  assert (Hlen : length (new_of stale_world (value [] (fetched env two_purchases)))
                 = 1%nat) by (vm_compute; reflexivity).
  rewrite Hfetched in Htotal. rewrite Hlen in Hnew, Hcat.
  eexists _, _, synced. split; [exact Hrun|]. split; [exact Htotal|].
  split; [exact Hnew|]. split; [exact Hcat|]. split; [exact Hsynced | exact Hle].
Defined.


(** two new transactions while the classifier is down *)
Lemma classifier_down_still_ingests_witness :
  ∃ stats w' row,
    fetch_and_process_transactions env all_down true empty_world = (Ok stats, w')
    ∧ stats !! "categories_used" = Some (VInt 1)
    ∧ rows w' !! 1%nat = Some row
    ∧ Database.primary_category row = VStr "Other".
Proof.
  assert (Hf : fetched env all_down = Ok (value [] (fetched env all_down)))
    by (apply fetched_returns; vm_compute; reflexivity).
  assert (Hrun := run_returns all_down true empty_world
                    ltac:(vm_compute; reflexivity)).
  destruct (classifier_down_still_ingests env all_down true empty_world _ _ _
              ltac:(reflexivity) Hf
              ltac:(apply not_nil_length; vm_compute; reflexivity) Hrun)
    as (Hused & _ & Hrows).
  destruct (Hrows 1%nat ltac:(apply Nat.ltb_lt; vm_compute; reflexivity))
    as (row & Hrow & Hp & _).
  eexists _, _, row. split; [exact Hrun|]. split; [exact Hused|].
  split; [exact Hrow | exact Hp].
Defined.

(** three rows: two of "Shopping", one without category *)
Lemma category_summary_counts_rows_witness :
  ∃ totals,
    get_category_summary mixed_world = Ok totals
    ∧ count_of (VStr "Shopping") totals = 2%nat
    ∧ count_of (VStr "Other") totals = 1%nat
    ∧ count_of VNone totals = 0%nat.
Proof.
  assert (Hsum := value_Ok [] (get_category_summary mixed_world)
                    ltac:(vm_compute; reflexivity)).
  assert (Htext : Forall (λ row, text_or_null (Database.primary_category row))
                    (rows mixed_world)).
  { unfold mixed_world. cbn [rows].
    repeat (apply Forall_cons; split);
      first [exact I | by left | right; by eexists]. }
  destruct (category_summary_counts_rows _ _ Htext Hsum) as (_ & _ & _ & Hcount).
  eexists. split; [exact Hsum|].
  rewrite !Hcount. split_and!; vm_compute; reflexivity.
Defined.

(** a row without amount *)
Lemma category_summary_needs_amounts_witness :
  get_category_summary broken_world = Raise TypeError.
Proof.
  apply (category_summary_needs_amounts broken_world 0%nat
           (row_of "t1" (VStr "Shopping") VNone true)); reflexivity.
Defined.

(** the write fails; the same feed again brings nothing new and the
    row stays unsynced *)
Lemma failed_push_is_not_retried_alone_witness :
  ∃ stats w1 stats2,
    fetch_and_process_transactions env failing_sheet true empty_world = (Ok stats, w1)
    ∧ stats !! "synced_to_sheets" = Some (VInt 0)
    ∧ fetch_and_process_transactions env working_sheet true w1 = (Ok stats2, w1).
Proof.
  assert (Hf : fetched env failing_sheet = Ok (value [] (fetched env failing_sheet)))
    by (apply fetched_returns; vm_compute; reflexivity).
  assert (Hf2 : fetched env working_sheet
                = Ok (value [] (fetched env working_sheet)))
    by (apply fetched_returns; vm_compute; reflexivity).
  assert (Hrun := run_returns failing_sheet true empty_world
                    ltac:(vm_compute; reflexivity)).
  destruct (failed_push_is_not_retried_alone env failing_sheet working_sheet true
              empty_world _ _ _ _ Hf
              ltac:(apply not_nil_length; vm_compute; reflexivity) eq_refl
              ltac:(right; right; reflexivity) Hrun Hf2
              ltac:(vm_compute; reflexivity))
    as (Hsynced & _ & _ & Hrun2).
  eexists _, _, _. split; [exact Hrun|]. split; [exact Hsynced | exact Hrun2].
Defined.

End more_examples.
